(** * PDS4Browser: orientation normalisation and directory listing

    A shallow embedding of [plugins/PDS4Browser.py]:
    - [PDS4LabelHandler.load_file], which reads a PDS4 label, picks an
      array and re-orients it for a bottom-to-top, left-to-right display;
    - [PDS4Browser.get_info], [browse], [open_files], the directory
      indexer and path expander of the file browser plugin.

    Strings are [string] (8-bit characters) and string order is the
    code-point order [String.compare].  [lower] is Python's [str.lower]
    on ASCII strings, which is where the two agree: what is proved about
    the order of a listing is stated for ASCII paths. *)

From Stdlib Require Import String Ascii DecimalString.
From Stdlib Require Import List Arith Lia Bool ZArith QArith Sorted Permutation.
From stdpp Require Import gmap strings.
Import ListNotations.

(** ** Exceptions raised by the embedded code *)

Inductive Exception : Type :=
| IOError (msg : string)
| InvalidPDS4Data (msg : string)
| TypeError
| IndexError
| AttributeError
| ReaderError (msg : string).

(** ** numpy arrays

    An [ndarray] is a shape and a C-ordered (last index fastest) buffer.
    Transposition and reversed slices are index remappings of that
    buffer, as numpy's views are. *)

Module NDArray.
Section Ndarray.
Context {A : Type}.

Record ndarray : Type := mk_ndarray { shape : list nat; data : list A }.

Definition size (sh : list nat) : nat := fold_right Nat.mul 1 sh.

Definition ndim (a : ndarray) : nat := length (shape a).

(** The buffer holds one element per index. *)
Definition wf (a : ndarray) : Prop := length (data a) = size (shape a).

(** All indices of a shape, in C order. *)
Fixpoint indices (sh : list nat) : list (list nat) :=
  match sh with
  | [] => [[]]
  | n :: sh' => flat_map (fun i => map (cons i) (indices sh')) (seq 0 n)
  end.

(** Position in the buffer of an index. *)
Fixpoint offset (sh idx : list nat) : nat :=
  match sh, idx with
  | _ :: sh', i :: idx' => i * size sh' + offset sh' idx'
  | _, _ => 0
  end.

Fixpoint in_range (sh idx : list nat) : bool :=
  match sh, idx with
  | [], [] => true
  | n :: sh', i :: idx' => (i <? n) && in_range sh' idx'
  | _, _ => false
  end.

(** [a[idx]] for a full index; [None] stands for numpy's IndexError. *)
Definition item (a : ndarray) (idx : list nat) : option A :=
  if in_range (shape a) idx
  then nth_error (data a) (offset (shape a) idx)
  else None.

(** The array of shape [sh'] whose element at [idx] is [a[f idx]]. *)
Definition view (sh' : list nat) (f : list nat -> list nat)
    (a : ndarray) : ndarray :=
  mk_ndarray sh'
    match data a with
    | [] => []
    | d :: _ =>
        map (fun idx => nth (offset (shape a) (f idx)) (data a) d)
            (indices sh')
    end.

(** [a.T]: the axes in reverse order. *)
Definition T (a : ndarray) : ndarray :=
  view (rev (shape a)) (@rev nat) a.

(** The index with its [k]-th component counted from the other end. *)
Fixpoint mirror (k : nat) (sh idx : list nat) : list nat :=
  match sh, idx with
  | n :: sh', i :: idx' =>
      match k with
      | 0 => (n - 1 - i) :: idx'
      | S k' => i :: mirror k' sh' idx'
      end
  | _, _ => idx
  end.

(** [a[:, ..., ::-1]] with [k] leading full slices; numpy raises
    IndexError when the array has no axis [k]. *)
Definition flip (k : nat) (a : ndarray) : Exception + ndarray :=
  if k <? ndim a
  then inr (view (shape a) (mirror k (shape a)) a)
  else inl IndexError.

End Ndarray.
Arguments ndarray : clear implicits.
End NDArray.
Import NDArray.

(** ** Strings as Python uses them *)

Close Scope Q_scope.
Open Scope string_scope.
Open Scope list_scope.
Open Scope nat_scope.

(** [sub in s] *)
Fixpoint contains (sub s : string) : bool :=
  String.prefix sub s ||
  match s with
  | EmptyString => false
  | String _ s' => contains sub s'
  end.

(** [l[i]] for a Python integer index: negative indices count from the
    end, anything else out of range raises IndexError ([None]). *)
Definition py_index {X : Type} (l : list X) (i : Z) : option X :=
  let n := Z.of_nat (length l) in
  if (0 <=? i)%Z then nth_error l (Z.to_nat i)
  else if (- n <=? i)%Z then nth_error l (Z.to_nat (n + i))
  else None.

(** ** A monad for exceptions and observable calls

    A computation yields an exception or a value, and the list of calls
    it made to its collaborators, oldest first. *)

Module Run.
Definition M (E X : Type) : Type := ((Exception + X) * list E)%type.

Definition ret {E X} (x : X) : M E X := (inr x, []).
Definition raise {E X} (e : Exception) : M E X := (inl e, []).
Definition emit {E} (ev : E) : M E unit := (inr tt, [ev]).
Definition lift {E X} (r : Exception + X) : M E X := (r, []).
Definition bind {E X Y} (m : M E X) (k : X -> M E Y) : M E Y :=
    match m with
    | (inl e, tr) => (inl e, tr)
    | (inr x, tr) => let (r, tr') := k x in (r, (tr ++ tr')%list)
    end.
Definition result {E X} (m : M E X) : Exception + X := fst m.
Definition trace {E X} (m : M E X) : list E := snd m.
End Run.
Import Run.

Notation "'let*' x ':=' m 'in' k" := (bind m (fun x => k))
  (at level 10, x name, m at level 100, k at level 200).

(** ** PDS4 structures, as the label reader hands them over *)

Record AxisArray : Type := { sequence_number : Z }.

Record DisplayDirection : Type := {
  horizontal_display_axis : string;
  vertical_display_axis : string;
  horizontal_display_direction : string;
  vertical_display_direction : string
}.

Record UrlInfo : Type := { scheme : string; path : string }.

Section LabelHandler.
Context {A : Type}.

(** One element of the list [pds4_read] returns: [is_array()], [data],
    [meta_data.display_settings['Display_Direction']] and
    [meta_data.get_axis_array], which answers [None] for a name the
    label does not declare. *)
Record Structure : Type := {
  is_array : bool;
  sdata : ndarray A;
  Display_Direction : DisplayDirection;
  get_axis_array : string -> option AxisArray
}.

Inductive Event : Type :=
| PDS4Read (p : string)
| SetData (im : ndarray A).

(** The orientation block of [load_file]: the lookup of the horizontal
    axis, the transposition and the two reversals.  Subscripting the
    [None] of an unknown axis name is a TypeError. *)
Definition normalize (s : Structure) (im : ndarray A)
  : Exception + ndarray A :=
  let disp_dir := Display_Direction s in
  match get_axis_array s (horizontal_display_axis disp_dir) with
  | None => inl TypeError
  | Some haxis =>
      let im := if (sequence_number haxis =? 1)%Z then T im else im in
      let hdisp_dir := horizontal_display_direction disp_dir in
      let vdisp_dir := vertical_display_direction disp_dir in
      match (if contains "Right to Left" hdisp_dir
             then flip 1 im else inr im) with
      | inl e => inl e
      | inr im =>
          if contains "Top to Bottom" vdisp_dir
          then flip 0 im else inr im
      end
  end.

(** The orientation steps as the format describes them, on indices: the
    element at row [r], column [c] of the oriented [rows] x [cols] image
    is taken from the raw array after undoing, last step first, the
    reversal of the rows, the reversal of the columns and the
    transposition. *)
Definition source_index (transposed right_to_left top_to_bottom : bool)
    (rows cols r c : nat) : list nat :=
  let r' := if top_to_bottom then rows - 1 - r else r in
  let c' := if right_to_left then cols - 1 - c else c in
  if transposed then [c'; r'] else [r'; c'].

(** The same orientation as the format words it, on the rows of the
    image: the columns of the raw rows become rows, then every row is
    reversed, then the order of the rows is reversed, each step only when
    the label asks for it.  [n] is the number of columns of the raw
    image. *)
Definition to_list1 (o : option A) : list A :=
  match o with
  | Some x => [x]
  | None => []
  end.

Definition transpose_rows (n : nat) (rows : list (list A)) : list (list A) :=
  map (fun c => flat_map (fun row => to_list1 (nth_error row c)) rows)
      (seq 0 n).

Definition reverse_columns (rows : list (list A)) : list (list A) :=
  map (@rev A) rows.

Definition reverse_rows (rows : list (list A)) : list (list A) :=
  rev rows.

Definition normalize_rows (H : Z) (hdisp_dir vdisp_dir : string) (n : nat)
    (rows : list (list A)) : list (list A) :=
  let rows := if (H =? 1)%Z then transpose_rows n rows else rows in
  let rows :=
    if contains "Right to Left" hdisp_dir then reverse_columns rows
    else rows in
  if contains "Top to Bottom" vdisp_dir then reverse_rows rows else rows.

(** [a.tolist()] for a two-dimensional array: its rows. *)
Definition tolist (a : ndarray A) : list (list A) :=
  match shape a with
  | [m; n] =>
      map (fun r => flat_map (fun c => to_list1 (item a [r; c])) (seq 0 n))
          (seq 0 m)
  | _ => []
  end.

(** [rows] is an [m] x [n] image whose element at [r], [c] is [f r c]. *)
Definition raster (m n : nat) (f : nat -> nat -> option A)
    (rows : list (list A)) : Prop :=
  length rows = m /\
  forall r, r < m ->
    exists row, nth_error rows r = Some row /\ length row = n /\
                forall c, c < n -> nth_error row c = f r c.

(** The index of the first array of the file, counting from [i]. *)
Fixpoint first_array (struct : list Structure) (i : Z) : option Z :=
  match struct with
  | [] => None
  | s :: rest => if is_array s then Some i else first_array rest (i + 1)
  end.

Variable urlparse : string -> UrlInfo.
Variable pds4_read : string -> Exception + list Structure.

Definition load_file (filespec : string) (numhdu : option Z)
    (dstobj : bool) : M Event (ndarray A * Z) :=
  let urlinfo := urlparse filespec in
  if negb (existsb (String.eqb (scheme urlinfo)) ["file"; ""])
  then raise (IOError ("File must be local: " ++ filespec)%string)
  else
    let* _ := emit (PDS4Read (path urlinfo)) in
    let* struct := lift (pds4_read (path urlinfo)) in
    let* i := match numhdu with
         | None =>
             match first_array struct 0 with
             | Some i => ret i
             | None =>
                 raise (InvalidPDS4Data ("No image found in " ++ filespec)%string)
             end
         | Some i => ret i
         end in
    match py_index struct i with
    | None => raise IndexError
    | Some s =>
        let* im := lift (normalize s (sdata s)) in
        let* _ := (if dstobj then emit (SetData im) else ret tt) in
        ret (im, i)
    end.

End LabelHandler.
Arguments Structure : clear implicits.
Arguments Event : clear implicits.

(** ** More of Python's strings *)

Definition lower_ascii (c : ascii) : ascii :=
  let n := nat_of_ascii c in
  if (65 <=? n) && (n <=? 90) then ascii_of_nat (n + 32) else c.

(** [s.lower()] for an ASCII string [s]: the letters A to Z are folded,
    every other character is left alone.  (On other strings Python folds
    further letters.) *)
Fixpoint lower (s : string) : string :=
  match s with
  | EmptyString => EmptyString
  | String c s' => String (lower_ascii c) (lower s')
  end.


(** [s[:-1] if s.endswith(c) else s] *)
Fixpoint strip_last (c : ascii) (s : string) : string :=
  match s with
  | EmptyString => EmptyString
  | String x EmptyString => if Ascii.eqb x c then EmptyString else s
  | String x s' => String x (strip_last c s')
  end.

Definition is_space (c : ascii) : bool :=
  let n := nat_of_ascii c in ((9 <=? n) && (n <=? 13)) || (n =? 32).

Fixpoint lstrip (s : string) : string :=
  match s with
  | EmptyString => EmptyString
  | String c s' => if is_space c then lstrip s' else s
  end.

Fixpoint rstrip (s : string) : string :=
  match s with
  | EmptyString => EmptyString
  | String c s' =>
      match rstrip s' with
      | EmptyString => if is_space c then EmptyString else String c EmptyString
      | r => String c r
      end
  end.

(** [s.strip()] *)
Definition strip (s : string) : string := lstrip (rstrip s).

(** [str(n)] for an integer *)
Definition str (n : Z) : string := DecimalString.NilZero.string_of_int (Z.to_int n).

Definition oct_digit (n : Z) : ascii := ascii_of_nat (48 + Z.to_nat n).

Fixpoint oct_digits (fuel : nat) (n : Z) (acc : string) : string :=
  match fuel with
  | O => acc
  | S fuel' =>
      let acc' := String (oct_digit (n mod 8)) acc in
      if (n <? 8)%Z then acc' else oct_digits fuel' (n / 8) acc'
  end.

(** [oct(n)] *)
Definition oct (n : Z) : string :=
  ((if (n <? 0)%Z then "-" else "") ++ "0o" ++
   oct_digits (S (Z.to_nat (Z.log2 (Z.abs n)))) (Z.abs n) "")%string.

(** [l.sort(key=key)]: Python's sort is stable and compares keys with
    [<]; inserting each element before the first one whose key is not
    smaller yields the same list. *)
Section Sort.
Context {X : Type}.
Variable key : X -> string.

Fixpoint insert_by_key (x : X) (l : list X) : list X :=
  match l with
  | [] => [x]
  | y :: l' =>
      if String.leb (key x) (key y) then x :: y :: l'
      else y :: insert_by_key x l'
  end.

Fixpoint sort_by_key (l : list X) : list X :=
  match l with
  | [] => []
  | x :: l' => insert_by_key x (sort_by_key l')
  end.

End Sort.

(** ** os.path on POSIX *)

Module OsPath.

(** No separator occurs in [s]. *)
Fixpoint no_sep (s : string) : bool :=
  match s with
  | EmptyString => true
  | String c s' => negb (Ascii.eqb c "/") && no_sep s'
  end.

(** [(p[:i], p[i:])] for [i = p.rfind('/') + 1] *)
Fixpoint rsplit_sep (p : string) : string * string :=
  match p with
  | EmptyString => (EmptyString, EmptyString)
  | String c p' =>
      let (h, t) := rsplit_sep p' in
      match h with
      | EmptyString =>
          if Ascii.eqb c "/" then (String c EmptyString, t)
          else (EmptyString, String c t)
      | _ => (String c h, t)
      end
  end.

Fixpoint all_char (c : ascii) (s : string) : bool :=
  match s with
  | EmptyString => true
  | String x s' => Ascii.eqb x c && all_char c s'
  end.

(** [s.rstrip('/')] *)
Fixpoint rstrip_sep (s : string) : string :=
  match s with
  | EmptyString => EmptyString
  | String c s' =>
      match rstrip_sep s' with
      | EmptyString =>
          if Ascii.eqb c "/" then EmptyString else String c EmptyString
      | r => String c r
      end
  end.

(** [os.path.split] *)
Definition split (p : string) : string * string :=
  let (head, tail) := rsplit_sep p in
  let head :=
    match head with
    | EmptyString => head
    | _ => if all_char "/" head then head else rstrip_sep head
    end in
  (head, tail).

(** [os.path.join] of two components *)
Definition join (a b : string) : string :=
  match b with
  | String "/" _ => b
  | _ =>
      match a with
      | EmptyString => b
      | _ =>
          if String.eqb (snd (rsplit_sep a)) EmptyString then (a ++ b)%string
          else (a ++ "/" ++ b)%string
      end
  end.

(** [(s[:d], s[d:])] for the last dot [d] of [s], if there is one *)
Fixpoint rsplit_dot (s : string) : option (string * string) :=
  match s with
  | EmptyString => None
  | String c s' =>
      match rsplit_dot s' with
      | Some (r, e) => Some (String c r, e)
      | None => if Ascii.eqb c "." then Some (EmptyString, s) else None
      end
  end.

(** [os.path.splitext]: the extension starts at the last dot of the last
    component, unless only dots precede it there. *)
Definition splitext (p : string) : string * string :=
  let (h, f) := rsplit_sep p in
  match rsplit_dot f with
  | Some (r, e) => if all_char "." r then (p, EmptyString) else ((h ++ r)%string, e)
  | None => (p, EmptyString)
  end.

End OsPath.

(** ** The host: file system, clock rendering, ginga's iohelper *)

Record stat_result : Type := {
  st_mode : Z;
  st_size : Z;
  st_mtime : Q
}.

(** What [iohelper.get_fileinfo] returns, as far as [open_files] reads it *)
Record FileInfo : Type := { filepath : string; numhdu : option Z }.

Record Host : Type := {
  isdir : string -> bool;                  (* os.path.isdir *)
  islink : string -> bool;                 (* os.path.islink *)
  stat : string -> option stat_result;     (* os.stat; None: OSError *)
  glob : string -> list string;            (* glob.glob *)
  abspath : string -> string;      (* os.path.abspath, where it returns *)
  ctime : Q -> string;                     (* time.ctime *)
  get_fileinfo : string -> FileInfo;       (* iohelper.get_fileinfo *)
  get_hdu_suffix : option Z -> string      (* iohelper.get_hdu_suffix *)
}.

(** ** Bunches and the plugin's state *)

Inductive Icon : Type := folderpb | imagepb | filepb.

Inductive Value : Type :=
| VStr (s : string)
| VInt (n : Z)
| VFloat (q : Q)
| VIcon (i : Icon).

Abbreviation Bunch := (gmap string Value).

(** [v == s] for a string [s] *)
Definition is_str (v : Value) (s : string) : bool :=
  match v with
  | VStr t => String.eqb t s
  | _ => false
  end.

(** [b.update(dict(k1=v1, ...))] and [Bunch.setvals] *)
Definition update (b : Bunch) (kvs : list (string * Value)) : Bunch :=
  fold_left (fun m kv => <[fst kv := snd kv]> m) kvs b.

Inductive Call : Type :=
| ShowError (msg : string)        (* fv.show_error *)
| LoadFile (p : string).          (* AstroImage.load_file, then set_image *)

Record Plugin : Type := {
  columns : list (string * string);
  viewer : bool;                  (* a viewer or channel to load into *)
  jumpinfo : list Bunch;
  curpath : string;
  entry : string;                 (* text of the path entry *)
  treeview : gmap string Bunch;   (* tree shown by the table *)
  calls : list Call               (* calls made to the host application *)
}.

Definition set_listing (st : Plugin) (ji : list Bunch) (cp : string) : Plugin :=
  {| columns := columns st; viewer := viewer st; jumpinfo := ji;
     curpath := cp; entry := entry st; treeview := treeview st;
     calls := calls st |}.

Definition set_view (st : Plugin) (ji : list Bunch) (txt : string)
    (tree : gmap string Bunch) : Plugin :=
  {| columns := columns st; viewer := viewer st; jumpinfo := ji;
     curpath := curpath st; entry := txt; treeview := tree;
     calls := calls st |}.

Definition call (st : Plugin) (cs : list Call) : Plugin :=
  {| columns := columns st; viewer := viewer st; jumpinfo := jumpinfo st;
     curpath := curpath st; entry := entry st; treeview := treeview st;
     calls := (calls st ++ cs)%list |}.

(** ** The browser plugin *)

Section Browser.
Variable os : Host.

(** [{attrname: 'N/A' for colname, attrname in self.columns}] *)
Definition na_dict (cols : list (string * string)) : Bunch :=
  fold_left (fun m col => <[snd col := VStr "N/A"]> m) cols ∅.

(** The type tag [get_info] computes for a path. *)
Definition ftype (path : string) : string :=
  let (dirname, filename) := OsPath.split path in
  let (name, ext) := OsPath.splitext filename in
  if isdir os path then "dir"
  else if islink os path then "link"
  else if String.eqb (lower ext) ".xml" then "xml"
  else "file".

Definition get_info (cols : list (string * string)) (path : string) : Bunch :=
  let (dirname, filename) := OsPath.split path in
  let bnch := na_dict cols in
  match stat os path with
  | Some filestat =>
      update bnch
        [("path", VStr path); ("name", VStr filename);
         ("type", VStr (ftype path));
         ("st_mode", VInt (st_mode filestat));
         ("st_mode_oct", VStr (oct (st_mode filestat)));
         ("st_size", VInt (st_size filestat));
         ("st_size_str", VStr (str (st_size filestat)));
         ("st_mtime", VFloat (st_mtime filestat));
         ("st_mtime_str", VStr (ctime os (st_mtime filestat)))]
  | None =>
      update bnch
        [("path", VStr path); ("name", VStr filename);
         ("type", VStr (ftype path));
         ("st_mode", VInt 0); ("st_size", VInt 0); ("st_mtime", VInt 0)]
  end.

(** Reading a missing attribute of a Bunch is an AttributeError. *)
Definition file_icon (bnch : Bunch) : Exception + Icon :=
  match bnch !! "type" with
  | None => inl AttributeError
  | Some ty =>
      if is_str ty "dir" then inr folderpb
      else if is_str ty "xml" then inr imagepb
      else inr filepb
  end.

(** The loop of [makelisting]: every bunch of [jumpinfo] gets its icon
    (the bunches of the list are updated in place) and is stored in the
    tree under its name.  Names are strings here; a bunch without one
    cannot be filed. *)
Fixpoint make_tree (ji : list Bunch) (tree_dict : gmap string Bunch)
  : Exception + (list Bunch * gmap string Bunch) :=
  match ji with
  | [] => inr ([], tree_dict)
  | bnch :: rest =>
      match file_icon bnch with
      | inl e => inl e
      | inr icon =>
          let bnch := update bnch [("icon", VIcon icon)] in
          match bnch !! "name" with
          | Some (VStr entry_key) =>
              match make_tree rest (<[entry_key := bnch]> tree_dict) with
              | inl e => inl e
              | inr (ji', t) => inr (bnch :: ji', t)
              end
          | Some _ => inl TypeError
          | None => inl AttributeError
          end
      end
  end.

Definition makelisting (st : Plugin) (path : string) : Exception + Plugin :=
  match make_tree (jumpinfo st) ∅ with
  | inl e => inl e
  | inr (ji, tree_dict) => inr (set_view st ji path tree_dict)
  end.

Definition browse (st : Plugin) (path : string) : Exception + Plugin :=
  let (dirname, globname) :=
    if isdir os path then (path, None)
    else let (d, g) := OsPath.split path in (d, Some g) in
  let dirname := abspath os dirname in
  (* check validity of leading path name *)
  if negb (isdir os dirname)
  then inr (call st [ShowError ("Not a valid path: " ++ dirname)%string])
  else
    let globname :=
      match globname with
      | Some (String c g) => String c g
      | _ => "*"
      end in
    let path := OsPath.join dirname globname in
    (* Make a directory listing *)
    let filelist := glob os path in
    let filelist := sort_by_key lower filelist in
    let filelist := OsPath.join dirname ".." :: filelist in
    makelisting (set_listing st (map (get_info (columns st)) filelist) path)
                path.

Definition refresh (st : Plugin) : Exception + Plugin :=
  browse st (curpath st).

(** Names for what [browse] computes on its way: the directory it
    checks, the pattern it globs, the paths it lists, and a bunch once
    [makelisting] has given it its icon. *)
Definition browse_dir (path : string) : string :=
  abspath os (if isdir os path then path else fst (OsPath.split path)).

Definition browse_pattern (path : string) : string :=
  OsPath.join (browse_dir path)
    (if isdir os path then "*"
     else match snd (OsPath.split path) with
          | EmptyString => "*"
          | g => g
          end).

Definition browse_filelist (path : string) : list string :=
  OsPath.join (browse_dir path) ".." ::
  sort_by_key lower (glob os (browse_pattern path)).

Definition with_icon (bnch : Bunch) : Bunch :=
  match file_icon bnch with
  | inr icon => update bnch [("icon", VIcon icon)]
  | inl _ => bnch
  end.

(** Each path goes to the image loader and then to the viewer; with no
    viewer and no channel the loop returns at once. *)
Definition load_paths (st : Plugin) (paths : list string) : Plugin :=
  if viewer st then call st (map LoadFile paths) else st.

Definition open_files (st : Plugin) (path : string) : Plugin * bool :=
  (* Strips trailing wildcard *)
  let path := strip_last "*" path in
  if isdir os path then (st, false)
  else
    let info := get_fileinfo os path in
    let ext := get_hdu_suffix os (numhdu info) in
    let files := glob os (filepath info) in
    let paths := map (fun f => (f ++ ext)%string) files in
    (load_paths st paths, true).

Definition browse_cb (st : Plugin) (text : string) : Exception + Plugin :=
  let path := strip text in
  let (st', retcode) := open_files st path in
  if retcode then inr st' else browse st' path.

End Browser.

(** ** Sample labels, arrays and URLs *)

Module Samples.

Definition image_3x4 : ndarray Z :=
  mk_ndarray [3; 4] [0; 1; 2; 3; 4; 5; 6; 7; 8; 9; 10; 11]%Z.

Definition image_4x3_transposed : ndarray Z :=
  mk_ndarray [4; 3] [0; 4; 8; 1; 5; 9; 2; 6; 10; 3; 7; 11]%Z.

Definition cube_2x2x2 : ndarray Z :=
  mk_ndarray [2; 2; 2] [1; 2; 3; 4; 5; 6; 7; 8]%Z.

(** A structure whose label declares the axes [axes] (name, sequence
    number) and displays "Sample" horizontally and "Line" vertically. *)
Definition label (axes : list (string * Z)) (hdir vdir : string)
    (im : ndarray Z) : Structure Z :=
  {| is_array := true;
     sdata := im;
     Display_Direction :=
       {| horizontal_display_axis := "Sample";
          vertical_display_axis := "Line";
          horizontal_display_direction := hdir;
          vertical_display_direction := vdir |};
     get_axis_array := fun name =>
       match find (fun ax => String.eqb (fst ax) name) axes with
       | Some ax => Some {| sequence_number := snd ax |}
       | None => None
       end |}.

(** [(s[:i], s[i+1:])] for the first colon [i] of [s] *)
Fixpoint split_colon (s : string) : option (string * string) :=
  match s with
  | EmptyString => None
  | String c s' =>
      if Ascii.eqb c ":" then Some (EmptyString, s')
      else match split_colon s' with
           | Some (a, b) => Some (String c a, b)
           | None => None
           end
  end.

Definition is_alpha (c : ascii) : bool :=
  let n := nat_of_ascii (lower_ascii c) in (97 <=? n) && (n <=? 122).

Definition is_scheme_char (c : ascii) : bool :=
  let n := nat_of_ascii c in
  is_alpha c || ((48 <=? n) && (n <=? 57)) ||
  Ascii.eqb c "+" || Ascii.eqb c "-" || Ascii.eqb c ".".

Fixpoint all_scheme_chars (s : string) : bool :=
  match s with
  | EmptyString => true
  | String c s' => is_scheme_char c && all_scheme_chars s'
  end.

(** What follows the network location of [//netloc/path] *)
Fixpoint from_slash (s : string) : string :=
  match s with
  | EmptyString => EmptyString
  | String c s' => if Ascii.eqb c "/" then s else from_slash s'
  end.

(** [urllib.parse.urlparse] on URLs without parameters, query or
    fragment: the scheme is what precedes the first colon when that is a
    letter followed by scheme characters; a leading [//netloc] is not part
    of the path. *)
Definition urlparse (url : string) : UrlInfo :=
  let strip_netloc rest :=
    match rest with
    | String "/" (String "/" rest') => from_slash rest'
    | _ => rest
    end in
  match split_colon url with
  | Some (String c pre, rest) =>
      if is_alpha c && all_scheme_chars pre
      then {| scheme := lower (String c pre); path := strip_netloc rest |}
      else {| scheme := ""; path := strip_netloc url |}
  | _ => {| scheme := ""; path := strip_netloc url |}
  end.

(** A reader that knows one file, holding one image. *)
Definition pds4_read (p : string) : Exception + list (Structure Z) :=
  if String.eqb p "/data/image.xml"
  then inr [label [("Line", 1%Z); ("Sample", 2%Z)]
              "Left to Right" "Bottom to Top" image_3x4]
  else inl (ReaderError "no such label").

End Samples.

(** ** Sample hosts *)

Module Hosts.

Definition mem (p : string) (l : list string) : bool :=
  existsb (String.eqb p) l.

Definition epoch : string := "Thu Jan  1 00:00:00 1970".

(** [(s[:i], s[i+1:])] for the last opening bracket [i] of [s] *)
Fixpoint rsplit_bracket (s : string) : option (string * string) :=
  match s with
  | EmptyString => None
  | String c s' =>
      match rsplit_bracket s' with
      | Some (a, b) => Some (String c a, b)
      | None => if Ascii.eqb c "[" then Some (EmptyString, s') else None
      end
  end.

(** ginga's [iohelper.get_fileinfo] on a local path: a trailing [[N]]
    with a decimal [N] is the index of the structure to load. *)
Definition parse_fileinfo (filespec : string) : FileInfo :=
  match rsplit_bracket filespec with
  | Some (String c pre, rest) =>
      match rsplit_bracket (String "[" (strip_last "]" rest)),
            String.eqb rest (strip_last "]" rest) with
      | Some (EmptyString, inner), false =>
          match NilZero.uint_of_string inner with
          | Some u => {| filepath := String c pre;
                         numhdu := Some (Z.of_uint u) |}
          | None => {| filepath := filespec; numhdu := None |}
          end
      | _, _ => {| filepath := filespec; numhdu := None |}
      end
  | _ => {| filepath := filespec; numhdu := None |}
  end.

(** ginga's [iohelper.get_hdu_suffix] *)
Definition hdu_suffix (idx : option Z) : string :=
  match idx with
  | None => ""
  | Some n => ("[" ++ str n ++ "]")%string
  end.

Definition regular : stat_result :=
  {| st_mode := 33188; st_size := 2048; st_mtime := 0 |}.

Definition directory : stat_result :=
  {| st_mode := 16877; st_size := 4096; st_mtime := 0 |}.

(** [/tmp] holds two labels, a text file, a directory named [data.xml]
    and a dangling symbolic link, which [os.stat] cannot follow. *)
Definition tmp : Host :=
  {| isdir := fun p => mem p ["/"; "/tmp"; "/tmp/.."; "/tmp/data.xml"];
     islink := fun p => mem p ["/tmp/link"];
     stat := fun p =>
       if mem p ["/"; "/tmp"; "/tmp/.."; "/tmp/data.xml"] then Some directory
       else if mem p ["/tmp/data1.xml"; "/tmp/Data2.XML"; "/tmp/notes.txt"]
       then Some regular
       else None;
     glob := fun pat =>
       if String.eqb pat "/tmp/*"
       then ["/tmp/notes.txt"; "/tmp/link"; "/tmp/data1.xml";
             "/tmp/data.xml"; "/tmp/Data2.XML"]
       else if mem pat ["/tmp/data1.xml"; "/tmp/data*.xml"]
       then ["/tmp/data1.xml"]
       else [];
     abspath := fun p => p;
     ctime := fun _ => epoch;
     get_fileinfo := parse_fileinfo;
     get_hdu_suffix := hdu_suffix |}.


Definition default_columns : list (string * string) :=
  [("Type", "icon"); ("Name", "name"); ("Size", "st_size_str");
   ("Mode", "st_mode_oct"); ("Last Changed", "st_mtime_str")].

(** The plugin before its first listing. *)
Definition fresh : Plugin :=
  {| columns := default_columns; viewer := true; jumpinfo := [];
     curpath := "/home/*"; entry := ""; treeview := ∅; calls := [] |}.

End Hosts.

(** ** More sample files *)

Module Files.

(** A table: a structure that is no array. *)
Definition table : Structure Z :=
  {| is_array := false;
     sdata := mk_ndarray [0] [];
     Display_Direction :=
       {| horizontal_display_axis := ""; vertical_display_axis := "";
          horizontal_display_direction := "";
          vertical_display_direction := "" |};
     get_axis_array := fun _ => None |}.

Definition image : Structure Z :=
  Samples.label [("Line", 1%Z); ("Sample", 2%Z)]
    "Left to Right" "Top to Bottom" Samples.image_3x4.

(** A file of tables only, and a file with an image after two tables. *)
Definition read_tables (p : string) : Exception + list (Structure Z) :=
  inr [table; table].

Definition read_mixed (p : string) : Exception + list (Structure Z) :=
  inr [table; table; image].

End Files.

(** ** The buttons and the double click

    [os.path.isfile], [os.path.exists] and the viewer's
    [name_image_from_path] are the host's. *)

Definition set_entry (st : Plugin) (txt : string) : Plugin :=
  {| columns := columns st; viewer := viewer st; jumpinfo := jumpinfo st;
     curpath := curpath st; entry := txt; treeview := treeview st;
     calls := calls st |}.

(** [info.path] for a row of the table.  Paths are strings here, as
    [get_info] makes them. *)
Definition path_of (info : Bunch) : Exception + string :=
  match info !! "path" with
  | Some (VStr p) => inr p
  | Some _ => inl TypeError
  | None => inl AttributeError
  end.

(** [[info.path for key, info in res_dict.items()]] *)
Fixpoint paths_of (res_dict : list (string * Bunch))
  : Exception + list string :=
  match res_dict with
  | [] => inr []
  | (_, info) :: rest =>
      match path_of info with
      | inl e => inl e
      | inr p =>
          match paths_of rest with
          | inl e => inl e
          | inr ps => inr (p :: ps)
          end
      end
  end.

Section Buttons.
Variable os : Host.
Variable isfile : string -> bool.                 (* os.path.isfile *)
Variable path_exists : string -> bool.            (* os.path.exists *)
Variable name_image_from_path : string -> string.

(** [select_dict] is what [treeview.get_selected()] answers. *)
Definition load_cb (st : Plugin) (select_dict : list (string * Bunch))
  : Exception + Plugin :=
  (* Load from text box *)
  let path := strip (entry st) in
  let (st, retcode) := open_files os st path in
  if retcode then inr st
  else
    (* Load from tree view *)
    match paths_of select_dict with
    | inl e => inl e
    | inr paths =>
        (* Open directory *)
        if (length paths =? 1) && isdir os (hd "" paths)
        then
          let path := OsPath.join (hd "" paths) "*" in
          browse_cb os (set_entry st path) path
        else
          (* Exclude directories *)
          let paths := List.filter isfile paths in
          (* Load files *)
          inr (load_paths st paths)
    end.

Definition open_file (st : Plugin) (path : string) : Exception + Plugin :=
  let path :=
    if String.eqb path ".."
    then let (curdir, curglob) := OsPath.split (curpath st) in
         OsPath.join (OsPath.join curdir path) curglob
    else path in
  if isdir os path then browse os st (OsPath.join path "*")
  else if path_exists path
  then inr (load_paths st [("file://" ++ path)%string])
  else browse os st path.

(** [paths[0]] of an empty selection is an IndexError. *)
Definition item_dblclicked_cb (st : Plugin)
    (res_dict : list (string * Bunch)) : Exception + Plugin :=
  match paths_of res_dict with
  | inl e => inl e
  | inr [] => inl IndexError
  | inr (path :: _) => open_file st path
  end.

(** The infos [make_thumbs] hands to [channel.add_image_info], in the
    order [_add_info] makes them: (name, path). *)
Definition add_info (filelist : list string) : list (string * string) :=
  map (fun path => (name_image_from_path path, path)) filelist.

Definition make_thumbs (st : Plugin) : list (string * string) :=
  let path := curpath st in
  let filelist := glob os path in
  let filelist := sort_by_key lower filelist in
  add_info filelist.

End Buttons.
(** ** Basic facts on shapes and indices *)

Lemma length_flat_map_const {X Y : Type} (f : X -> list Y) k l :
  (forall x, length (f x) = k) -> length (flat_map f l) = length l * k.
Proof.
  intros Hf. induction l as [|x l IH]; simpl; [reflexivity|].
  rewrite length_app, Hf, IH. reflexivity.
Qed.

Lemma length_indices sh : length (indices sh) = size sh.
Proof.
  induction sh as [|n sh IH]; simpl; [reflexivity|].
  rewrite (length_flat_map_const _ (size sh)).
  - now rewrite length_seq.
  - intros i. now rewrite length_map.
Qed.

Lemma nth_error_flat_map_const {X Y : Type} (f : X -> list Y) k l i j :
  (forall x, length (f x) = k) -> j < k ->
  nth_error (flat_map f l) (i * k + j) =
  match nth_error l i with Some x => nth_error (f x) j | None => None end.
Proof.
  intros Hf Hj. revert i. induction l as [|x l IH]; intros i; simpl.
  - destruct i; simpl; now rewrite ?nth_error_nil.
  - destruct i as [|i]; simpl.
    + rewrite nth_error_app1; [reflexivity | rewrite Hf; exact Hj].
    + rewrite nth_error_app2 by (rewrite Hf; lia).
      rewrite Hf. replace (k + i * k + j - k) with (i * k + j) by lia.
      apply IH.
Qed.

Lemma offset_lt sh idx : in_range sh idx = true -> offset sh idx < size sh.
Proof.
  revert idx. induction sh as [|n sh IH]; intros [|i idx]; simpl; try discriminate.
  - lia.
  - intros H. apply andb_true_iff in H as [Hi Hr].
    apply Nat.ltb_lt in Hi. specialize (IH _ Hr). nia.
Qed.

Lemma nth_error_indices sh idx :
  in_range sh idx = true -> nth_error (indices sh) (offset sh idx) = Some idx.
Proof.
  revert idx. induction sh as [|n sh IH]; intros [|i idx]; simpl; try discriminate.
  - reflexivity.
  - intros H. apply andb_true_iff in H as [Hi Hr]. apply Nat.ltb_lt in Hi.
    rewrite (nth_error_flat_map_const _ (size sh)).
    + rewrite (nth_error_nth' _ 0) by (rewrite length_seq; exact Hi).
      rewrite seq_nth by exact Hi. simpl.
      rewrite nth_error_map, (IH _ Hr). reflexivity.
    + intros x. now rewrite length_map, length_indices.
    + now apply offset_lt.
Qed.

Lemma map_add_seq b a s : map (fun p => b + p) (seq a s) = seq (b + a) s.
Proof.
  revert a. induction s as [|s IH]; intros a; simpl; [reflexivity|].
  f_equal. rewrite IH. f_equal. lia.
Qed.

Lemma offset_indices_block sh n a m :
  map (offset sh) (indices sh) = seq 0 (size sh) ->
  map (offset (n :: sh))
      (flat_map (fun i => map (cons i) (indices sh)) (seq a m)) =
  seq (a * size sh) (m * size sh).
Proof.
  intros IH. revert a. induction m as [|m IHm]; intros a; [reflexivity|].
  cbn [seq flat_map]. rewrite map_app, map_map, (IHm (S a)).
  replace (S m * size sh) with (size sh + m * size sh) by lia.
  rewrite seq_app. f_equal; [|f_equal; simpl; lia].
  cbn [offset].
  rewrite <- (map_map (offset sh) (fun p => a * size sh + p)), IH.
  rewrite map_add_seq. f_equal. lia.
Qed.

Lemma offset_indices sh : map (offset sh) (indices sh) = seq 0 (size sh).
Proof.
  induction sh as [|n sh IH]; [reflexivity|].
  cbn [indices size fold_right].
  now rewrite (offset_indices_block sh n 0 n IH).
Qed.

Lemma map_nth_seq {X : Type} (l : list X) d :
  map (fun i => nth i l d) (seq 0 (length l)) = l.
Proof.
  induction l as [|x l IH]; simpl; [reflexivity|].
  f_equal. rewrite <- seq_shift, map_map. exact IH.
Qed.

(** ** Views: shape, well-formedness, elements *)

Section ViewFacts.
Context {A : Type}.
Implicit Types a : ndarray A.

Lemma shape_view sh' f a : shape (view sh' f a) = sh'.
Proof. reflexivity. Qed.

Lemma wf_view sh' f a :
  wf a -> size sh' = size (shape a) -> wf (view sh' f a).
Proof.
  unfold wf, view. intros Hwf Hsz. simpl.
  destruct (data a) as [|d l] eqn:E.
  - simpl in *. lia.
  - now rewrite length_map, length_indices.
Qed.

Lemma item_view sh' f a idx :
  wf a ->
  in_range sh' idx = true ->
  in_range (shape a) (f idx) = true ->
  item (view sh' f a) idx = item a (f idx).
Proof.
  unfold wf, item, view. intros Hwf Hin Hsrc. simpl.
  rewrite Hin, Hsrc.
  pose proof (offset_lt _ _ Hsrc) as Hlt. rewrite <- Hwf in Hlt.
  destruct (data a) as [|d l] eqn:E; [simpl in Hlt; lia|].
  rewrite nth_error_map, (nth_error_indices _ _ Hin). cbn [option_map].
  symmetry. now apply nth_error_nth'.
Qed.

Lemma view_id f a :
  wf a ->
  (forall idx, In idx (indices (shape a)) -> f idx = idx) ->
  view (shape a) f a = a.
Proof.
  unfold wf, view. intros Hwf Hf. destruct a as [sh dt]. simpl in *.
  f_equal. destruct dt as [|d l] eqn:E; [reflexivity|]. rewrite <- E in *.
  rewrite (map_ext_in _ (fun idx => nth (offset sh idx) dt d)).
  - rewrite <- (map_map (offset sh) (fun i => nth i dt d)), offset_indices.
    rewrite <- Hwf. apply map_nth_seq.
  - intros idx Hidx. now rewrite (Hf idx Hidx).
Qed.
End ViewFacts.


(** ** Transposition and reversals of a two-dimensional array *)

Section TwoDim.
Context {A : Type}.
Implicit Types a : ndarray A.

Lemma in_range_2d m n r c :
  in_range [m; n] [r; c] = true <-> r < m /\ c < n.
Proof.
  simpl. rewrite andb_true_r, andb_true_iff, !Nat.ltb_lt. reflexivity.
Qed.

Lemma T_2d a m n :
  wf a -> shape a = [m; n] ->
  wf (T a) /\ shape (T a) = [n; m] /\
  forall r c, in_range [n; m] [r; c] = true ->
    item (T a) [r; c] = item a [c; r].
Proof.
  intros Hwf Hsh. unfold T. rewrite Hsh. simpl rev.
  split; [|split; [reflexivity|]].
  - apply wf_view; [exact Hwf|]. rewrite Hsh. simpl. lia.
  - intros r c Hin. apply (item_view [n; m] (@rev nat) a [r; c] Hwf Hin).
    rewrite Hsh. simpl rev. apply in_range_2d in Hin.
    apply in_range_2d. lia.
Qed.

Lemma flip1_2d a m n :
  wf a -> shape a = [m; n] ->
  exists b, flip 1 a = inr b /\ wf b /\ shape b = [m; n] /\
    forall r c, in_range [m; n] [r; c] = true ->
      item b [r; c] = item a [r; n - 1 - c].
Proof.
  intros Hwf Hsh. unfold flip, ndim. rewrite Hsh. simpl Nat.ltb.
  eexists. split; [reflexivity|]. split; [|split; [reflexivity|]].
  - apply wf_view; [exact Hwf | now rewrite Hsh].
  - intros r c Hin.
    rewrite (item_view [m; n] (mirror 1 [m; n]) a [r; c] Hwf Hin).
    + reflexivity.
    + rewrite Hsh. simpl mirror. apply in_range_2d in Hin.
      apply in_range_2d. lia.
Qed.

Lemma flip0_2d a m n :
  wf a -> shape a = [m; n] ->
  exists b, flip 0 a = inr b /\ wf b /\ shape b = [m; n] /\
    forall r c, in_range [m; n] [r; c] = true ->
      item b [r; c] = item a [m - 1 - r; c].
Proof.
  intros Hwf Hsh. unfold flip, ndim. rewrite Hsh. simpl Nat.ltb.
  eexists. split; [reflexivity|]. split; [|split; [reflexivity|]].
  - apply wf_view; [exact Hwf | now rewrite Hsh].
  - intros r c Hin.
    rewrite (item_view [m; n] (mirror 0 [m; n]) a [r; c] Hwf Hin).
    + reflexivity.
    + rewrite Hsh. simpl mirror. apply in_range_2d in Hin.
      apply in_range_2d. lia.
Qed.

End TwoDim.

(** ** Images as lists of rows *)

Section Rasters.
Context {A : Type}.
Implicit Types (rows : list (list A)) (a : ndarray A).

Lemma flat_map_to_list1 {X : Type} (g : X -> option A) (l : list X) :
  (forall x, In x l -> g x <> None) ->
  length (flat_map (fun x => to_list1 (g x)) l) = length l /\
  forall i, nth_error (flat_map (fun x => to_list1 (g x)) l) i =
            match nth_error l i with Some x => g x | None => None end.
Proof.
  induction l as [|x l IH]; intros Hg.
  - split; [reflexivity|]. intros i. now rewrite !nth_error_nil.
  - destruct IH as [IHlen IHnth]; [intros y Hy; apply Hg; now right|].
    cbn [flat_map]. destruct (g x) as [v|] eqn:Hx;
      [|exfalso; apply (Hg x); [now left | exact Hx]].
    cbn [to_list1 app length]. split; [now rewrite IHlen|].
    intros [|i]; cbn [nth_error]; [now rewrite Hx | apply IHnth].
Qed.

Lemma raster_ext m n f g rows rows' :
  raster m n f rows -> raster m n g rows' ->
  (forall r c, r < m -> c < n -> f r c = g r c) ->
  rows = rows'.
Proof.
  intros [Hlen Hrows] [Hlen' Hrows'] Hfg. apply nth_error_ext. intros r.
  destruct (Nat.lt_ge_cases r m) as [Hr|Hr].
  - destruct (Hrows r Hr) as (row & -> & Hn & Hrow).
    destruct (Hrows' r Hr) as (row' & -> & Hn' & Hrow').
    f_equal. apply nth_error_ext. intros c.
    destruct (Nat.lt_ge_cases c n) as [Hc|Hc].
    + now rewrite Hrow, Hrow', Hfg.
    + transitivity (@None A); [|symmetry]; apply nth_error_None; lia.
  - transitivity (@None (list A)); [|symmetry]; apply nth_error_None; lia.
Qed.

Lemma raster_weaken m n f g rows :
  raster m n f rows ->
  (forall r c, r < m -> c < n -> f r c = g r c) ->
  raster m n g rows.
Proof.
  intros [Hlen Hrows] Hfg. split; [exact Hlen|]. intros r Hr.
  destruct (Hrows r Hr) as (row & Hrow & Hn & Hc).
  exists row. repeat split; try assumption.
  intros c Hcn. now rewrite Hc, Hfg.
Qed.

Lemma item_in_range a idx :
  wf a -> in_range (shape a) idx = true -> item a idx <> None.
Proof.
  intros Hwf Hin. unfold item. rewrite Hin. apply nth_error_Some.
  rewrite Hwf. now apply offset_lt.
Qed.

Lemma tolist_raster a m n :
  wf a -> shape a = [m; n] ->
  raster m n (fun r c => item a [r; c]) (tolist a).
Proof.
  intros Hwf Hsh. unfold tolist. rewrite Hsh. split.
  - now rewrite length_map, length_seq.
  - intros r Hr.
    exists (flat_map (fun c => to_list1 (item a [r; c])) (seq 0 n)).
    split; [|split].
    + rewrite nth_error_map, nth_error_seq.
      apply Nat.ltb_lt in Hr. rewrite Hr. reflexivity.
    + destruct (flat_map_to_list1 (fun c => item a [r; c]) (seq 0 n))
        as [Hlen _]; [|now rewrite Hlen, length_seq].
      intros c Hc. apply in_seq in Hc. apply item_in_range; [exact Hwf|].
      rewrite Hsh. apply in_range_2d. lia.
    + intros c Hc.
      destruct (flat_map_to_list1 (fun c => item a [r; c]) (seq 0 n))
        as [_ Hnth].
      * intros c' Hc'. apply in_seq in Hc'.
        apply item_in_range; [exact Hwf|].
        rewrite Hsh. apply in_range_2d. lia.
      * rewrite Hnth, nth_error_seq. apply Nat.ltb_lt in Hc.
        now rewrite Hc.
Qed.

End Rasters.

(** ** The orientation block of [load_file] *)

Section Normalize.
Context {A : Type}.
Implicit Types (a raw : ndarray A) (s : Structure A).

(** The two reversals, after the transposition has been decided. *)
Lemma reversals_2d a p q (rtl ttb : bool) :
  wf a -> shape a = [p; q] ->
  exists out,
    match (if rtl then flip 1 a else inr a) with
    | inl e => inl e
    | inr im => if ttb then flip 0 im else inr im
    end = inr out /\
    wf out /\ shape out = [p; q] /\
    forall r c, in_range [p; q] [r; c] = true ->
      item out [r; c] =
      item a [if ttb then p - 1 - r else r; if rtl then q - 1 - c else c].
Proof.
  intros Hwf Hsh.
  assert (Hmid : exists b, (if rtl then flip 1 a else inr a) = inr b /\
            wf b /\ shape b = [p; q] /\
            forall r c, in_range [p; q] [r; c] = true ->
              item b [r; c] = item a [r; if rtl then q - 1 - c else c]).
  { destruct rtl.
    - exact (flip1_2d a p q Hwf Hsh).
    - exists a. repeat split; assumption || reflexivity. }
  destruct Hmid as (b & -> & Hwfb & Hshb & Hb).
  destruct ttb.
  - destruct (flip0_2d b p q Hwfb Hshb) as (o & Ho & Hwfo & Hsho & Hio).
    exists o. repeat split; try assumption.
    intros r c Hin. rewrite (Hio r c Hin). apply Hb.
    apply in_range_2d in Hin. apply in_range_2d. lia.
  - exists b. repeat split; assumption.
Qed.

(** C1. For a raw two-dimensional array whose horizontal axis the label
    resolves, [normalize] returns the array obtained by transposing iff
    the horizontal axis has sequence number 1, then reversing the columns
    iff the horizontal display direction says "Right to Left", then
    reversing the rows iff the vertical display direction says "Top to
    Bottom": the result has the shape this gives and each of its elements
    is the raw element at [source_index]; no element value is changed. *)
Theorem normalize_2d_sequence s raw m n haxis :
  wf raw -> shape raw = [m; n] ->
  get_axis_array s (horizontal_display_axis (Display_Direction s)) = Some haxis ->
  exists out,
    normalize s raw = inr out /\ wf out /\
    shape out = (if (sequence_number haxis =? 1)%Z then [n; m] else [m; n]) /\
    forall r c, in_range (shape out) [r; c] = true ->
      item out [r; c] =
      item raw
        (source_index
           (sequence_number haxis =? 1)%Z
           (contains "Right to Left"
              (horizontal_display_direction (Display_Direction s)))
           (contains "Top to Bottom"
              (vertical_display_direction (Display_Direction s)))
           (if (sequence_number haxis =? 1)%Z then n else m)
           (if (sequence_number haxis =? 1)%Z then m else n) r c).
Proof.
  intros Hwf Hsh Hax. unfold normalize. rewrite Hax. cbv zeta.
  set (rtl := contains "Right to Left" _).
  set (ttb := contains "Top to Bottom" _).
  destruct (sequence_number haxis =? 1)%Z.
  - destruct (T_2d raw m n Hwf Hsh) as (HwfT & HshT & HT).
    destruct (reversals_2d (T raw) n m rtl ttb HwfT HshT)
      as (out & Hout & Hwfo & Hsho & Hio).
    exists out. rewrite Hout, Hsho. repeat split; try assumption.
    intros r c Hin. rewrite (Hio r c Hin). unfold source_index.
    apply HT. apply in_range_2d in Hin. apply in_range_2d.
    destruct rtl, ttb; lia.
  - destruct (reversals_2d raw m n rtl ttb Hwf Hsh)
      as (out & Hout & Hwfo & Hsho & Hio).
    exists out. rewrite Hout, Hsho. repeat split; assumption.
Qed.

End Normalize.

Lemma normalize_2d_sequence_witness :
  exists out,
    normalize (Samples.label [("Sample", 1%Z); ("Line", 2%Z)]
                 "Right to Left" "Top to Bottom" Samples.image_3x4)
              Samples.image_3x4 = inr out /\
    shape out = [4; 3] /\
    item out [0; 0] = item Samples.image_3x4 [2; 3].
Proof.
  destruct (normalize_2d_sequence
              (Samples.label [("Sample", 1%Z); ("Line", 2%Z)]
                 "Right to Left" "Top to Bottom" Samples.image_3x4)
              Samples.image_3x4 3 4 {| sequence_number := 1 |}
              eq_refl eq_refl eq_refl)
    as (out & Hn & _ & Hsh & Hitem).
  exists out. split; [exact Hn|]. split; [exact Hsh|].
  apply (Hitem 0 0). rewrite Hsh. reflexivity.
Defined.

Section NormalizeChecks.
Context {A : Type}.
Implicit Types (a raw : ndarray A) (s : Structure A).

(** C2, as amended. For a 3x4 array and directions that ask for no
    reversal, [normalize] returns the array unchanged when the horizontal
    axis does not have sequence number 1; when it has, the result is the
    4x3 transposed array. *)
Theorem normalize_3x4_no_flips s raw haxis :
  wf raw -> shape raw = [3; 4] ->
  get_axis_array s (horizontal_display_axis (Display_Direction s)) = Some haxis ->
  contains "Right to Left"
    (horizontal_display_direction (Display_Direction s)) = false ->
  contains "Top to Bottom"
    (vertical_display_direction (Display_Direction s)) = false ->
  (sequence_number haxis <> 1%Z -> normalize s raw = inr raw) /\
  (sequence_number haxis = 1%Z ->
     normalize s raw = inr (T raw) /\ shape (T raw) = [4; 3] /\
     forall r c, r < 4 -> c < 3 -> item (T raw) [r; c] = item raw [c; r]).
Proof.
  intros Hwf Hsh Hax Hh Hv. unfold normalize. rewrite Hax, Hh, Hv. split.
  - intros Hne. apply Z.eqb_neq in Hne. now rewrite Hne.
  - intros ->. simpl. split; [reflexivity|].
    destruct (T_2d raw 3 4 Hwf Hsh) as (_ & HshT & HT).
    split; [exact HshT|]. intros r c Hr Hc. apply HT.
    apply in_range_2d. lia.
Qed.

(** C3, as amended. [normalize] checks neither the axis roles nor the
    rank: it fails, with a TypeError, exactly when the label does not
    resolve the horizontal display axis; otherwise an array of any rank
    from 2 on is returned with its rank unchanged, and neither the name
    nor the descriptor of the vertical axis has any effect. *)
Theorem normalize_no_role_or_rank_check s raw :
  2 <= ndim raw ->
  (get_axis_array s (horizontal_display_axis (Display_Direction s)) = None ->
   normalize s raw = inl TypeError) /\
  (forall haxis,
     get_axis_array s (horizontal_display_axis (Display_Direction s)) = Some haxis ->
     exists out, normalize s raw = inr out /\ ndim out = ndim raw) /\
  (forall s',
     horizontal_display_direction (Display_Direction s') =
       horizontal_display_direction (Display_Direction s) ->
     vertical_display_direction (Display_Direction s') =
       vertical_display_direction (Display_Direction s) ->
     get_axis_array s' (horizontal_display_axis (Display_Direction s')) =
       get_axis_array s (horizontal_display_axis (Display_Direction s)) ->
     normalize s' raw = normalize s raw).
Proof.
  intros Hrank. split; [|split].
  - intros Hax. unfold normalize. now rewrite Hax.
  - intros haxis Hax. unfold normalize. rewrite Hax. cbv zeta.
    set (im := if (sequence_number haxis =? 1)%Z then T raw else raw).
    assert (Him : ndim im = ndim raw).
    { unfold im. destruct (sequence_number haxis =? 1)%Z; [|reflexivity].
      unfold ndim, T. simpl. apply length_rev. }
    assert (Hflip : forall k (b : ndarray A), k < ndim b ->
              exists o, flip k b = inr o /\ ndim o = ndim b).
    { intros k b Hk. unfold flip. apply Nat.ltb_lt in Hk. rewrite Hk.
      eexists. split; reflexivity. }
    destruct (contains "Right to Left" _).
    + destruct (Hflip 1 im) as (o & -> & Ho); [lia|].
      destruct (contains "Top to Bottom" _).
      * destruct (Hflip 0 o) as (o' & -> & Ho'); [lia|].
        exists o'. split; [reflexivity | lia].
      * exists o. split; [reflexivity | lia].
    + destruct (contains "Top to Bottom" _).
      * destruct (Hflip 0 im) as (o' & -> & Ho'); [lia|].
        exists o'. split; [reflexivity | lia].
      * exists im. split; [reflexivity | exact Him].
  - intros s' Hh Hv Hax. unfold normalize. now rewrite Hax, Hh, Hv.
Qed.

End NormalizeChecks.

(** C2 fails as stated: with the horizontal axis at sequence number 1 and
    both directions increasing, the 3x4 array comes back transposed. *)
Lemma normalize_3x4_axis1_counterexample :
  normalize (Samples.label [("Sample", 1%Z); ("Line", 2%Z)]
               "Left to Right" "Bottom to Top" Samples.image_3x4)
            Samples.image_3x4 = inr Samples.image_4x3_transposed /\
  normalize (Samples.label [("Sample", 1%Z); ("Line", 2%Z)]
               "Left to Right" "Bottom to Top" Samples.image_3x4)
            Samples.image_3x4 <> inr Samples.image_3x4.
Proof. split; [reflexivity | discriminate]. Qed.

Lemma normalize_3x4_no_flips_witness :
  normalize (Samples.label [("Line", 1%Z); ("Sample", 2%Z)]
               "Left to Right" "Bottom to Top" Samples.image_3x4)
            Samples.image_3x4 = inr Samples.image_3x4.
Proof.
  apply (normalize_3x4_no_flips
           (Samples.label [("Line", 1%Z); ("Sample", 2%Z)]
              "Left to Right" "Bottom to Top" Samples.image_3x4)
           Samples.image_3x4 {| sequence_number := 2 |}
           eq_refl eq_refl eq_refl eq_refl eq_refl).
  discriminate.
Defined.

(** C3 fails as stated: a rank-3 array whose label declares no vertical
    axis is returned as a normally oriented array. *)
Lemma normalize_rank3_counterexample :
  ndim Samples.cube_2x2x2 = 3 /\
  get_axis_array
    (Samples.label [("Sample", 3%Z)] "Left to Right" "Bottom to Top"
       Samples.cube_2x2x2) "Line" = None /\
  normalize (Samples.label [("Sample", 3%Z)] "Left to Right" "Bottom to Top"
               Samples.cube_2x2x2)
            Samples.cube_2x2x2 = inr Samples.cube_2x2x2.
Proof. repeat split. Qed.

Lemma normalize_no_role_or_rank_check_witness :
  exists out,
    normalize (Samples.label [("Sample", 1%Z)] "Right to Left" "Top to Bottom"
                 Samples.cube_2x2x2)
              Samples.cube_2x2x2 = inr out /\
    ndim out = 3.
Proof.
  destruct (normalize_no_role_or_rank_check
              (Samples.label [("Sample", 1%Z)] "Right to Left" "Top to Bottom"
                 Samples.cube_2x2x2)
              Samples.cube_2x2x2 (le_S 2 2 (le_n 2)))
    as (_ & Hok & _).
  exact (Hok {| sequence_number := 1 |} eq_refl).
Defined.

(** ** The local-file gate of [load_file] *)

Section LocalOnly.
Context {A : Type}.
Variable urlparse : string -> UrlInfo.
Variable pds4_read : string -> Exception + list (Structure A).

Lemma scheme_gate (sch : string) :
  existsb (String.eqb sch) ["file"; ""] = true <-> sch = "file" \/ sch = "".
Proof.
  simpl. rewrite orb_false_r, orb_true_iff, !String.eqb_eq. reflexivity.
Qed.

(** C10. A filespec whose URL scheme is neither "file" nor empty makes
    [load_file] raise the IOError "File must be local: <filespec>" without
    any call to the reader; and whenever the reader is called, the scheme
    is "file" or empty and the reader gets the path of the parsed URL. *)
Theorem load_file_local_only filespec numhdu dstobj :
  (scheme (urlparse filespec) <> "file" ->
   scheme (urlparse filespec) <> "" ->
   load_file urlparse pds4_read filespec numhdu dstobj =
     (inl (IOError ("File must be local: " ++ filespec)%string), [])) /\
  (forall p,
     In (PDS4Read p) (trace (load_file urlparse pds4_read filespec numhdu dstobj)) ->
     (scheme (urlparse filespec) = "file" \/ scheme (urlparse filespec) = "") /\
     p = path (urlparse filespec)).
Proof.
  unfold load_file.
  destruct (existsb (String.eqb (scheme (urlparse filespec))) ["file"; ""])
    eqn:Hgate; cbn [negb].
  - apply scheme_gate in Hgate. split.
    + intros H1 H2. destruct Hgate; contradiction.
    + intros p Hin. split; [exact Hgate|].
      unfold trace, bind, emit, lift, raise, ret in Hin.
      destruct (pds4_read (path (urlparse filespec))) as [e|struct];
        [simpl in Hin; intuition congruence|].
      destruct numhdu as [i|]; [|destruct (first_array struct 0) as [i|]];
        try (simpl in Hin; intuition congruence);
        (destruct (py_index struct i) as [st|];
         [|simpl in Hin; intuition congruence]);
        (destruct (normalize st (sdata st)) as [e|im];
         [simpl in Hin; intuition congruence|]);
        destruct dstobj; simpl in Hin; intuition congruence.
  - split; [reflexivity|].
    intros p Hin. simpl in Hin. contradiction.
Qed.

End LocalOnly.

Lemma load_file_local_only_witness :
  load_file Samples.urlparse Samples.pds4_read
    "http://pds.example.org/data/image.xml" None false =
  (inl (IOError "File must be local: http://pds.example.org/data/image.xml"), []).
Proof.
  apply (load_file_local_only Samples.urlparse Samples.pds4_read
           "http://pds.example.org/data/image.xml" None false);
    discriminate.
Defined.

Example load_file_local_sample :
  load_file Samples.urlparse Samples.pds4_read
    "file:///data/image.xml" None true =
  (inr (Samples.image_3x4, 0%Z),
   [PDS4Read "/data/image.xml"; SetData Samples.image_3x4]).
Proof. reflexivity. Qed.

(** ** The order of strings *)







(** ** The stable sort *)

Section SortFacts.
Context {X : Type}.
Variable key : X -> string.

Lemma insert_by_key_perm x l : Permutation (x :: l) (insert_by_key key x l).
Proof.
  induction l as [|y l IH]; simpl; [reflexivity|].
  destruct (String.leb (key x) (key y)); [reflexivity|].
  rewrite perm_swap. now apply perm_skip.
Qed.

Lemma sort_by_key_perm l : Permutation l (sort_by_key key l).
Proof.
  induction l as [|x l IH]; simpl; [constructor|].
  rewrite <- insert_by_key_perm. now apply perm_skip.
Qed.





End SortFacts.




(** ** Bunches *)

Lemma update_cons (b : Bunch) k v kvs :
  update b ((k, v) :: kvs) = update (<[k := v]> b) kvs.
Proof. reflexivity. Qed.

Lemma update_nil (b : Bunch) : update b [] = b.
Proof. reflexivity. Qed.

Lemma na_dict_from (cols : list (string * string)) (m : Bunch) (a : string) :
  fold_left (fun m col => <[snd col := VStr "N/A"]> m) cols m !! a =
  if existsb (String.eqb a) (map snd cols) then Some (VStr "N/A") else m !! a.
Proof.
  revert m. induction cols as [|[h c] cols IH]; intros m; [reflexivity|].
  cbn [fold_left map existsb snd]. rewrite IH.
  destruct (existsb (String.eqb a) (map snd cols)).
  - now rewrite orb_true_r.
  - rewrite orb_false_r. destruct (String.eqb_spec a c) as [->|Hne].
    + apply lookup_insert_eq.
    + apply lookup_insert_ne. congruence.
Qed.

Lemma na_dict_lookup cols a :
  na_dict cols !! a =
  if existsb (String.eqb a) (map snd cols) then Some (VStr "N/A") else None.
Proof. unfold na_dict. now rewrite na_dict_from, lookup_empty. Qed.

(** ** [get_info] and [makelisting] *)

Ltac bunch_lookup :=
  unfold update; cbn [fold_left fst snd];
  repeat (rewrite lookup_insert_ne by discriminate);
  try rewrite lookup_insert_eq; try reflexivity.

Section BrowserFacts.
Variable os : Host.

Lemma get_info_path cols p : get_info os cols p !! "path" = Some (VStr p).
Proof.
  unfold get_info. destruct (OsPath.split p) as [d f].
  destruct (stat os p); bunch_lookup.
Qed.

Lemma get_info_name cols p :
  get_info os cols p !! "name" = Some (VStr (snd (OsPath.split p))).
Proof.
  unfold get_info. destruct (OsPath.split p) as [d f].
  destruct (stat os p); bunch_lookup.
Qed.

Lemma get_info_type cols p :
  get_info os cols p !! "type" = Some (VStr (ftype os p)).
Proof.
  unfold get_info. destruct (OsPath.split p) as [d f].
  destruct (stat os p); bunch_lookup.
Qed.

Lemma with_icon_lookup (b : Bunch) k :
  k <> "icon" -> with_icon b !! k = b !! k.
Proof.
  intros Hk. unfold with_icon. destruct (file_icon b); [reflexivity|].
  unfold update. cbn [fold_left fst snd]. apply lookup_insert_ne. congruence.
Qed.

Lemma make_tree_ok (ji : list Bunch) (tree : gmap string Bunch) :
  Forall (fun b : Bunch =>
            is_Some (b !! "type") /\ exists n, b !! "name" = Some (VStr n)) ji ->
  exists t, make_tree ji tree = inr (map with_icon ji, t).
Proof.
  intros H. revert tree. induction H as [|b ji [[ty Hty] [n Hn]] Hji IH];
    intros tree; cbn [make_tree map]; [eexists; reflexivity|].
  unfold with_icon. unfold file_icon at 1 2. rewrite Hty.
  assert (Hicon : exists i,
    (if is_str ty "dir" then inr folderpb
     else if is_str ty "xml" then inr imagepb else inr filepb)
    = (inr i : Exception + Icon)).
  { destruct (is_str ty "dir"); [eauto|]. destruct (is_str ty "xml"); eauto. }
  destruct Hicon as [i ->].
  assert (Hname : update b [("icon", VIcon i)] !! "name" = Some (VStr n)).
  { unfold update. cbn [fold_left fst snd].
    rewrite lookup_insert_ne by discriminate. exact Hn. }
  rewrite Hname.
  destruct (IH (<[n := update b [("icon", VIcon i)]]> tree)) as [t ->].
  eexists; reflexivity.
Qed.

Lemma get_info_listable cols (l : list string) :
  Forall (fun b : Bunch =>
            is_Some (b !! "type") /\ exists n, b !! "name" = Some (VStr n))
         (map (get_info os cols) l).
Proof.
  apply Forall_map, Forall_forall. intros p _. split.
  - rewrite get_info_type. eauto.
  - rewrite get_info_name. eauto.
Qed.

(** With a valid directory, [browse] lists the parent entry and the
    sorted matches, one bunch per path. *)
Lemma browse_ok st path :
  isdir os (browse_dir os path) = true ->
  exists tree,
    browse os st path =
    inr (set_view
           (set_listing st
              (map (get_info os (columns st)) (browse_filelist os path))
              (browse_pattern os path))
           (map with_icon
              (map (get_info os (columns st)) (browse_filelist os path)))
           (browse_pattern os path) tree).
Proof.
  intros Hdir.
  destruct (make_tree_ok
              (map (get_info os (columns st)) (browse_filelist os path)) ∅
              (get_info_listable (columns st) (browse_filelist os path)))
    as [tree Htree].
  exists tree. unfold browse.
  unfold browse_filelist, browse_pattern, browse_dir in *.
  revert Hdir Htree. destruct (isdir os path).
  - intros Hdir Htree. rewrite Hdir. cbn [negb].
    unfold makelisting. cbn [jumpinfo set_listing]. now rewrite Htree.
  - destruct (OsPath.split path) as [d g]. cbn [fst snd].
    intros Hdir Htree. rewrite Hdir. cbn [negb].
    unfold makelisting. cbn [jumpinfo set_listing].
    destruct g as [|c g]; now rewrite Htree.
Qed.

End BrowserFacts.

Example get_fileinfo_sample :
  Hosts.parse_fileinfo "/tmp/data1.xml[2]" =
  {| filepath := "/tmp/data1.xml"; numhdu := Some 2%Z |}.
Proof. reflexivity. Qed.

Example browse_tmp_paths :
  match browse Hosts.tmp Hosts.fresh "/tmp/*" with
  | inr st => map (fun b : Bunch => b !! "path") (jumpinfo st)
  | inl _ => []
  end =
  map (fun p => Some (VStr p))
    ["/tmp/.."; "/tmp/data.xml"; "/tmp/data1.xml"; "/tmp/Data2.XML";
     "/tmp/link"; "/tmp/notes.txt"].
Proof. vm_compute. reflexivity. Qed.

(** ** Paths *)

Lemma append_cons x (a b : string) :
  (String x a ++ b)%string = String x (a ++ b).
Proof. reflexivity. Qed.

Lemma append_nil (a : string) : ("" ++ a)%string = a.
Proof. reflexivity. Qed.

Lemma string_app_assoc (a b c : string) :
  ((a ++ b) ++ c)%string = (a ++ b ++ c)%string.
Proof.
  induction a as [|x a IH]; [reflexivity|].
  now rewrite !append_cons, IH.
Qed.

Lemma strip_last_snoc c s : strip_last c (s ++ String c "") = s.
Proof.
  induction s as [|x s IH].
  - rewrite append_nil. simpl. now rewrite Ascii.eqb_refl.
  - rewrite append_cons. destruct s as [|y s].
    + rewrite append_nil in *. simpl in *. now rewrite IH.
    + rewrite append_cons in *.
      change (String x (strip_last c (String y (s ++ String c ""))) =
              String x (String y s)).
      now rewrite IH.
Qed.

Lemma strip_last_other c x s :
  x <> c -> strip_last c (s ++ String x "") = (s ++ String x "")%string.
Proof.
  intros Hx. induction s as [|y s IH].
  - rewrite append_nil. simpl. apply Ascii.eqb_neq in Hx. now rewrite Hx.
  - rewrite append_cons. destruct s as [|z s].
    + rewrite append_nil in *. simpl in *. now rewrite IH.
    + rewrite append_cons in *.
      change (String y (strip_last c (String z (s ++ String x ""))) =
              String y (String z (s ++ String x ""))).
      now rewrite IH.
Qed.

Lemma rsplit_sep_no_sep n :
  OsPath.no_sep n = true -> OsPath.rsplit_sep n = ("", n).
Proof.
  induction n as [|c n IH]; simpl; [reflexivity|].
  intros H. apply andb_true_iff in H as [Hc Hn].
  rewrite (IH Hn). apply negb_true_iff in Hc. now rewrite Hc.
Qed.

Lemma rsplit_sep_child d n :
  OsPath.no_sep n = true ->
  OsPath.rsplit_sep (d ++ "/" ++ n) = ((d ++ "/")%string, n).
Proof.
  intros Hn. induction d as [|c d IH].
  - rewrite !append_nil, append_cons, append_nil. simpl.
    now rewrite (rsplit_sep_no_sep n Hn).
  - rewrite (append_cons c d ("/" ++ n)), (append_cons c d "/").
    cbn [OsPath.rsplit_sep]. rewrite IH.
    destruct d; reflexivity.
Qed.


(** ** The browser: classification, expansion, listing *)

Section BrowserClaims.
Variable os : Host.

(** C9. The type tag of a path is "dir" if it is a directory; otherwise
    "link" if it is a symbolic link; otherwise "xml" if the lower-cased
    extension of its last component is ".xml"; otherwise "file".  This is
    the tag [get_info] stores. *)
Theorem ftype_precedence path :
  (isdir os path = true -> ftype os path = "dir") /\
  (isdir os path = false -> islink os path = true ->
   ftype os path = "link") /\
  (isdir os path = false -> islink os path = false ->
   lower (snd (OsPath.splitext (snd (OsPath.split path)))) = ".xml" ->
   ftype os path = "xml") /\
  (isdir os path = false -> islink os path = false ->
   lower (snd (OsPath.splitext (snd (OsPath.split path)))) <> ".xml" ->
   ftype os path = "file") /\
  (forall cols, get_info os cols path !! "type" = Some (VStr (ftype os path))).
Proof.
  refine (conj _ (conj _ (conj _ (conj _
            (fun cols => get_info_type os cols path)))));
    unfold ftype; destruct (OsPath.split path) as [d f]; cbn [snd];
    destruct (OsPath.splitext f) as [name ext]; cbn [snd].
  - now intros ->.
  - now intros -> ->.
  - intros -> -> ->. reflexivity.
  - intros -> -> Hne. apply String.eqb_neq in Hne. now rewrite Hne.
Qed.

(** C7. [open_files] drops one trailing "*" and no more; when what is
    left names a directory it returns False and the plugin is as before:
    nothing is globbed for loading and nothing is loaded.  [browse_cb]
    then lists the directory. *)
Theorem open_files_directory st path :
  isdir os (strip_last "*" path) = true ->
  open_files os st path = (st, false) /\
  (forall p, strip_last "*" (p ++ "*") = p) /\
  (forall p x, x <> "*"%char ->
     strip_last "*" (p ++ String x "") = (p ++ String x "")%string) /\
  (forall text, strip text = path ->
     browse_cb os st text = browse os st path).
Proof.
  intros Hdir. repeat split.
  - unfold open_files. now rewrite Hdir.
  - intros p. apply strip_last_snoc.
  - intros p x Hx. now apply strip_last_other.
  - intros text <-. unfold browse_cb, open_files. now rewrite Hdir.
Qed.

(** C6. When the directory part of the pattern is not an existing
    directory, [browse] reports "Not a valid path" through [show_error]
    and returns normally; the entries, the current path, the entry text
    and the tree stay as they were. *)
Theorem browse_invalid_directory st path :
  isdir os (browse_dir os path) = false ->
  exists st',
    browse os st path = inr st' /\
    calls st' =
      calls st ++ [ShowError ("Not a valid path: " ++ browse_dir os path)%string] /\
    jumpinfo st' = jumpinfo st /\ curpath st' = curpath st /\
    entry st' = entry st /\ treeview st' = treeview st.
Proof.
  intros Hdir.
  exists (call st [ShowError ("Not a valid path: " ++ browse_dir os path)%string]).
  split; [|repeat split].
  unfold browse. unfold browse_dir in *. revert Hdir.
  destruct (isdir os path).
  - intros ->. reflexivity.
  - destruct (OsPath.split path) as [d g]. cbn [fst]. intros ->. reflexivity.
Qed.

End BrowserClaims.

Lemma ftype_precedence_witness : ftype Hosts.tmp "/tmp/data.xml" = "dir".
Proof.
  destruct (ftype_precedence Hosts.tmp "/tmp/data.xml") as [Hdir _].
  exact (Hdir eq_refl).
Defined.

Example ftype_samples :
  map (ftype Hosts.tmp)
    ["/tmp/data.xml"; "/tmp/link"; "/tmp/data1.xml"; "/tmp/Data2.XML";
     "/tmp/notes.txt"] =
  ["dir"; "link"; "xml"; "xml"; "file"].
Proof. reflexivity. Qed.

Lemma open_files_directory_witness :
  open_files Hosts.tmp Hosts.fresh "/tmp*" = (Hosts.fresh, false).
Proof.
  destruct (open_files_directory Hosts.tmp Hosts.fresh "/tmp*" eq_refl)
    as [H _].
  exact H.
Defined.

Lemma browse_invalid_directory_witness :
  exists st',
    browse Hosts.tmp Hosts.fresh "/nowhere/*" = inr st' /\
    calls st' = [ShowError "Not a valid path: /nowhere"] /\
    jumpinfo st' = [] /\ curpath st' = "/home/*".
Proof.
  destruct (browse_invalid_directory Hosts.tmp Hosts.fresh "/nowhere/*" eq_refl)
    as (st' & Hb & Hc & Hj & Hp & _).
  exists st'. repeat split; assumption.
Defined.

Section StatFailure.
Variable os : Host.

Lemma get_info_unstatted cols path a :
  stat os path = None ->
  ~ In a ["path"; "name"; "type"; "st_mode"; "st_size"; "st_mtime"] ->
  get_info os cols path !! a = na_dict cols !! a.
Proof.
  intros Hstat Ha. unfold get_info. destruct (OsPath.split path) as [d f].
  rewrite Hstat. unfold update. cbn [fold_left fst snd].
  repeat (rewrite lookup_insert_ne;
          [|intros <-; apply Ha; simpl; tauto]).
  reflexivity.
Qed.

(** C5. When [os.stat] fails on a path, [get_info] still returns a bunch:
    path, name and type are filled in, st_size, st_mode and st_mtime are
    0, and every other column attribute keeps the marker "N/A".  A listing
    that meets such a path is completed and holds this bunch. *)
Theorem get_info_stat_failure cols path :
  stat os path = None ->
  get_info os cols path !! "path" = Some (VStr path) /\
  get_info os cols path !! "name" = Some (VStr (snd (OsPath.split path))) /\
  get_info os cols path !! "type" = Some (VStr (ftype os path)) /\
  get_info os cols path !! "st_size" = Some (VInt 0) /\
  get_info os cols path !! "st_mode" = Some (VInt 0) /\
  get_info os cols path !! "st_mtime" = Some (VInt 0) /\
  (forall a, In a (map snd cols) ->
     ~ In a ["path"; "name"; "type"; "st_mode"; "st_size"; "st_mtime"] ->
     get_info os cols path !! a = Some (VStr "N/A")) /\
  (forall st pat,
     columns st = cols ->
     isdir os (browse_dir os pat) = true ->
     In path (glob os (browse_pattern os pat)) ->
     exists st' b,
       browse os st pat = inr st' /\
       length (jumpinfo st') = S (length (glob os (browse_pattern os pat))) /\
       In b (jumpinfo st') /\
       b !! "path" = Some (VStr path) /\ b !! "st_size" = Some (VInt 0)).
Proof.
  intros Hstat.
  assert (Hzero : forall k,
            In k ["st_size"; "st_mode"; "st_mtime"] ->
            get_info os cols path !! k = Some (VInt 0)).
  { intros k Hk. unfold get_info. destruct (OsPath.split path) as [d f].
    rewrite Hstat. simpl in Hk.
    destruct Hk as [<-|[<-|[<-|[]]]]; bunch_lookup. }
  split; [apply get_info_path|].
  split; [apply get_info_name|].
  split; [apply get_info_type|].
  split; [apply Hzero; simpl; tauto|].
  split; [apply Hzero; simpl; tauto|].
  split; [apply Hzero; simpl; tauto|].
  split.
  - intros a Ha Hother. rewrite (get_info_unstatted cols path a Hstat Hother).
    rewrite na_dict_lookup.
    replace (existsb (String.eqb a) (map snd cols)) with true; [reflexivity|].
    symmetry. apply existsb_exists. exists a. split; [exact Ha|].
    apply String.eqb_refl.
  - intros st pat Hcols Hdir Hin.
    destruct (browse_ok os st pat Hdir) as [tree Hb].
    eexists. exists (with_icon (get_info os cols path)).
    split; [exact Hb|]. cbn [jumpinfo set_view]. rewrite Hcols.
    split; [|split; [|split]].
    + rewrite !length_map. unfold browse_filelist. cbn [length].
      f_equal. symmetry. apply Permutation_length, sort_by_key_perm.
    + apply in_map, in_map. unfold browse_filelist. right.
      eapply Permutation_in; [apply sort_by_key_perm | exact Hin].
    + rewrite with_icon_lookup by discriminate. apply get_info_path.
    + rewrite with_icon_lookup by discriminate. apply Hzero. simpl; tauto.
Qed.

End StatFailure.

Lemma get_info_stat_failure_witness :
  get_info Hosts.tmp Hosts.default_columns "/tmp/link" !! "st_size_str" =
    Some (VStr "N/A") /\
  get_info Hosts.tmp Hosts.default_columns "/tmp/link" !! "st_size" =
    Some (VInt 0) /\
  get_info Hosts.tmp Hosts.default_columns "/tmp/link" !! "type" =
    Some (VStr "link").
Proof.
  destruct (get_info_stat_failure Hosts.tmp Hosts.default_columns "/tmp/link"
              eq_refl)
    as (_ & _ & Hty & Hsz & _ & _ & Hna & _).
  split; [|split; [exact Hsz | exact Hty]].
  apply Hna.
  - simpl. tauto.
  - simpl. intros H. repeat (destruct H as [H|H]; [discriminate H|]). exact H.
Defined.

Section Expansion.
Variable os : Host.

(** C8. For an expression [pat[N]] that is not a directory, which
    [iohelper] parses into the pattern [pat] and the index [N] and whose
    suffix it renders as [[N]], [open_files] globs [pat] and hands to
    [load_paths] one locator per match, in glob order, each the matched
    file followed by [[N]]; with a viewer at hand each is loaded. *)
Theorem open_files_sub_index st pat N :
  isdir os (pat ++ "[" ++ str N ++ "]") = false ->
  get_fileinfo os (pat ++ "[" ++ str N ++ "]") =
    {| filepath := pat; numhdu := Some N |} ->
  get_hdu_suffix os (Some N) = ("[" ++ str N ++ "]")%string ->
  open_files os st (pat ++ "[" ++ str N ++ "]") =
    (load_paths st
       (map (fun f => (f ++ "[" ++ str N ++ "]")%string) (glob os pat)),
     true) /\
  length (map (fun f => (f ++ "[" ++ str N ++ "]")%string) (glob os pat)) =
    length (glob os pat) /\
  (viewer st = true ->
   calls (fst (open_files os st (pat ++ "[" ++ str N ++ "]"))) =
     calls st ++
     map (fun f => LoadFile (f ++ "[" ++ str N ++ "]")) (glob os pat)).
Proof.
  intros Hdir Hinfo Hsuffix.
  assert (Hstrip : strip_last "*" (pat ++ "[" ++ str N ++ "]") =
                   (pat ++ "[" ++ str N ++ "]")%string).
  { rewrite <- !string_app_assoc.
    apply (strip_last_other "*" "]"). discriminate. }
  assert (Hopen : open_files os st (pat ++ "[" ++ str N ++ "]") =
    (load_paths st
       (map (fun f => (f ++ "[" ++ str N ++ "]")%string) (glob os pat)),
     true)).
  { unfold open_files. rewrite Hstrip, Hdir, Hinfo. cbn [numhdu filepath].
    now rewrite Hsuffix. }
  split; [exact Hopen|]. split; [apply length_map|].
  intros Hview. rewrite Hopen. cbn [fst]. unfold load_paths.
  rewrite Hview. cbn [calls call]. now rewrite map_map.
Qed.

End Expansion.

Lemma open_files_sub_index_witness :
  open_files Hosts.tmp Hosts.fresh "/tmp/data1.xml[2]" =
    (load_paths Hosts.fresh ["/tmp/data1.xml[2]"], true) /\
  calls (fst (open_files Hosts.tmp Hosts.fresh "/tmp/data1.xml[2]")) =
    [LoadFile "/tmp/data1.xml[2]"].
Proof.
  destruct (open_files_sub_index Hosts.tmp Hosts.fresh "/tmp/data1.xml" 2%Z
              eq_refl eq_refl eq_refl)
    as (Hopen & _ & Hcalls).
  split; [exact Hopen | exact (Hcalls eq_refl)].
Defined.

Example open_files_wildcard_sample :
  calls (fst (open_files Hosts.tmp Hosts.fresh "/tmp/data*.xml")) =
  [LoadFile "/tmp/data1.xml"].
Proof. reflexivity. Qed.

Section Listing.
Variable os : Host.




End Listing.



(** ** The orientation on rows *)

Section RowSteps.
Context {A : Type}.
Implicit Types (rows : list (list A)) (a : ndarray A).

Lemma raster_row m n f rows row :
  raster m n f rows -> In row rows -> length row = n.
Proof.
  intros [Hlen Hrows] Hin. apply In_nth_error in Hin as [r Hr].
  assert (Hlt : r < m).
  { rewrite <- Hlen. apply nth_error_Some. congruence. }
  destruct (Hrows r Hlt) as (row' & Hr' & Hn & _). congruence.
Qed.

Lemma transpose_rows_raster m n f rows :
  raster m n f rows ->
  raster n m (fun r c => f c r) (transpose_rows n rows).
Proof.
  intros Hras. pose proof Hras as [Hlen Hrows]. unfold transpose_rows. split.
  - now rewrite length_map, length_seq.
  - intros c Hc.
    assert (Hsome : forall row, In row rows -> nth_error row c <> None).
    { intros row Hin. apply nth_error_Some.
      now rewrite (raster_row m n f rows row Hras Hin). }
    destruct (flat_map_to_list1 (fun row => nth_error row c) rows Hsome)
      as [Hl Hnth].
    exists (flat_map (fun row => to_list1 (nth_error row c)) rows).
    split; [|split].
    + rewrite nth_error_map, nth_error_seq.
      apply Nat.ltb_lt in Hc. now rewrite Hc.
    + now rewrite Hl.
    + intros r Hr. rewrite Hnth.
      destruct (Hrows r Hr) as (row & -> & _ & Hrow). now apply Hrow.
Qed.

Lemma reverse_columns_raster m n f rows :
  raster m n f rows ->
  raster m n (fun r c => f r (n - 1 - c)) (reverse_columns rows).
Proof.
  intros [Hlen Hrows]. unfold reverse_columns. split.
  - now rewrite length_map.
  - intros r Hr. destruct (Hrows r Hr) as (row & Hrow & Hn & Hc).
    exists (rev row). split; [|split].
    + now rewrite nth_error_map, Hrow.
    + now rewrite length_rev.
    + intros c Hcn. rewrite nth_error_rev, Hn.
      apply Nat.ltb_lt in Hcn as Hb. rewrite Hb.
      replace (n - S c) with (n - 1 - c) by lia. apply Hc. lia.
Qed.

Lemma reverse_rows_raster m n f rows :
  raster m n f rows ->
  raster m n (fun r c => f (m - 1 - r) c) (reverse_rows rows).
Proof.
  intros [Hlen Hrows]. unfold reverse_rows. split.
  - now rewrite length_rev.
  - intros r Hr. destruct (Hrows (m - 1 - r)) as (row & Hrow & Hn & Hc); [lia|].
    exists row. split; [|split; assumption].
    rewrite nth_error_rev, Hlen. apply Nat.ltb_lt in Hr as Hb. rewrite Hb.
    now replace (m - S r) with (m - 1 - r) by lia.
Qed.

End RowSteps.

Section RowRefinement.
Context {A : Type}.
Implicit Types (rows : list (list A)) (raw : ndarray A) (s : Structure A).

Lemma reversals_rows p q f rows (rtl ttb : bool) :
  raster p q f rows ->
  raster p q
    (fun r c => f (if ttb then p - 1 - r else r) (if rtl then q - 1 - c else c))
    (let rows := if rtl then reverse_columns rows else rows in
     if ttb then reverse_rows rows else rows).
Proof.
  intros Hras. cbv zeta.
  assert (Hmid : raster p q (fun r c => f r (if rtl then q - 1 - c else c))
                   (if rtl then reverse_columns rows else rows)).
  { destruct rtl; [now apply reverse_columns_raster | exact Hras]. }
  destruct ttb; [|exact Hmid].
  exact (reverse_rows_raster p q _ _ Hmid).
Qed.

(** The orientation block computes, on the rows of a two-dimensional
    image, what the format prescribes step by step: [tolist] of the
    result is [normalize_rows] of [tolist] of the raw array. *)
Theorem normalize_tolist s raw m n haxis :
  wf raw -> shape raw = [m; n] ->
  get_axis_array s (horizontal_display_axis (Display_Direction s)) = Some haxis ->
  exists out,
    normalize s raw = inr out /\
    tolist out =
    normalize_rows (sequence_number haxis)
      (horizontal_display_direction (Display_Direction s))
      (vertical_display_direction (Display_Direction s))
      n (tolist raw).
Proof.
  intros Hwf Hsh Hax. unfold normalize, normalize_rows. rewrite Hax. cbv zeta.
  set (rtl := contains "Right to Left" _).
  set (ttb := contains "Top to Bottom" _).
  pose proof (tolist_raster raw m n Hwf Hsh) as Hraw.
  destruct (sequence_number haxis =? 1)%Z.
  - destruct (T_2d raw m n Hwf Hsh) as (HwfT & HshT & HT).
    destruct (reversals_2d (T raw) n m rtl ttb HwfT HshT)
      as (out & Hout & Hwfo & Hsho & Hio).
    exists out. split; [exact Hout|].
    apply (raster_ext n m (fun r c => item out [r; c])
             (fun r c => item raw [if rtl then m - 1 - c else c;
                                   if ttb then n - 1 - r else r])).
    + now apply tolist_raster.
    + exact (reversals_rows n m _ _ rtl ttb
               (transpose_rows_raster m n _ _ Hraw)).
    + intros r c Hr Hc. rewrite Hio by (apply in_range_2d; lia).
      apply HT. apply in_range_2d. destruct rtl, ttb; lia.
  - destruct (reversals_2d raw m n rtl ttb Hwf Hsh)
      as (out & Hout & Hwfo & Hsho & Hio).
    exists out. split; [exact Hout|].
    apply (raster_ext m n (fun r c => item out [r; c])
             (fun r c => item raw [if ttb then m - 1 - r else r;
                                   if rtl then n - 1 - c else c])).
    + now apply tolist_raster.
    + exact (reversals_rows m n _ _ rtl ttb Hraw).
    + intros r c Hr Hc. apply Hio. apply in_range_2d. lia.
Qed.

End RowRefinement.

Lemma normalize_tolist_witness :
  exists out,
    normalize (Samples.label [("Sample", 1%Z); ("Line", 2%Z)]
                 "Right to Left" "Top to Bottom" Samples.image_3x4)
              Samples.image_3x4 = inr out /\
    tolist out = [[11; 7; 3]; [10; 6; 2]; [9; 5; 1]; [8; 4; 0]]%Z.
Proof.
  destruct (normalize_tolist
              (Samples.label [("Sample", 1%Z); ("Line", 2%Z)]
                 "Right to Left" "Top to Bottom" Samples.image_3x4)
              Samples.image_3x4 3 4 {| sequence_number := 1 |}
              eq_refl eq_refl eq_refl)
    as (out & Hn & Hrows).
  exists out. split; [exact Hn|]. rewrite Hrows. reflexivity.
Defined.

(** ** More on the orientation block: arrays of rank below 2 *)

Section LowRank.
Context {A : Type}.
Implicit Types (raw : ndarray A) (s : Structure A).

Lemma ndim_T raw : ndim (T raw) = ndim raw.
Proof. unfold ndim, T. simpl. apply length_rev. Qed.

(** The reversed slices need their axis: on an array of rank 0 or 1 a
    "Right to Left" label makes the orientation fail with IndexError, and
    so does a "Top to Bottom" label on an array of rank 0. *)
Theorem normalize_low_rank s raw haxis :
  get_axis_array s (horizontal_display_axis (Display_Direction s)) = Some haxis ->
  (ndim raw < 2 ->
   contains "Right to Left"
     (horizontal_display_direction (Display_Direction s)) = true ->
   normalize s raw = inl IndexError) /\
  (ndim raw = 0 ->
   contains "Top to Bottom"
     (vertical_display_direction (Display_Direction s)) = true ->
   normalize s raw = inl IndexError).
Proof.
  intros Hax. unfold normalize. rewrite Hax. cbv zeta.
  set (im := if (sequence_number haxis =? 1)%Z then T raw else raw).
  assert (Him : ndim im = ndim raw).
  { unfold im. destruct (sequence_number haxis =? 1)%Z;
      [apply ndim_T | reflexivity]. }
  split.
  - intros Hrank ->. unfold flip at 1. rewrite Him.
    assert (Hb : (1 <? ndim raw) = false) by (apply Nat.ltb_ge; lia).
    now rewrite Hb.
  - intros Hrank ->.
    destruct (contains "Right to Left" _).
    + unfold flip at 1. now rewrite Him, Hrank.
    + unfold flip. now rewrite Him, Hrank.
Qed.

End LowRank.

Lemma normalize_low_rank_witness :
  normalize (Samples.label [("Sample", 1%Z)] "Right to Left" "Bottom to Top"
               (mk_ndarray [3] [1; 2; 3]%Z))
            (mk_ndarray [3] [1; 2; 3]%Z) = inl IndexError.
Proof.
  destruct (normalize_low_rank
              (Samples.label [("Sample", 1%Z)] "Right to Left" "Bottom to Top"
                 (mk_ndarray [3] [1; 2; 3]%Z))
              (mk_ndarray [3] [1; 2; 3]%Z) {| sequence_number := 1 |} eq_refl)
    as [H _].
  apply H; [unfold ndim; simpl; lia | reflexivity].
Defined.

(** ** Which structure [load_file] loads, and what the sink sees *)

Section LoadFile.
Context {A : Type}.
Variable urlparse : string -> UrlInfo.
Variable pds4_read : string -> Exception + list (Structure A).

Lemma first_array_none (struct : list (Structure A)) i0 :
  first_array struct i0 = None <->
  Forall (fun s => is_array s = false) struct.
Proof.
  revert i0. induction struct as [|s struct IH]; intros i0; simpl.
  - split; [constructor | reflexivity].
  - destruct (is_array s) eqn:Hs.
    + split; [discriminate|]. intros H. inversion H. congruence.
    + rewrite IH. split; [now constructor | intros H; now inversion H].
Qed.

Lemma first_array_some (struct : list (Structure A)) i0 i :
  first_array struct i0 = Some i ->
  exists k s,
    i = (i0 + Z.of_nat k)%Z /\ nth_error struct k = Some s /\
    is_array s = true /\
    forall j s', j < k -> nth_error struct j = Some s' -> is_array s' = false.
Proof.
  revert i0. induction struct as [|s struct IH]; intros i0; simpl;
    [discriminate|].
  destruct (is_array s) eqn:Hs.
  - intros [= <-]. exists 0, s. repeat split; [lia | assumption | lia].
  - intros H. destruct (IH _ H) as (k & s1 & -> & Hk & Harr & Hmin).
    exists (S k), s1. repeat split; [lia | assumption | assumption |].
    intros [|j] s' Hj; simpl; [congruence|]. apply Hmin. lia.
Qed.

Lemma py_index_nat (l : list (Structure A)) k :
  py_index l (Z.of_nat k) = nth_error l k.
Proof.
  unfold py_index.
  assert (H : (0 <=? Z.of_nat k)%Z = true) by (apply Z.leb_le; lia).
  now rewrite H, Nat2Z.id.
Qed.

(** What a local load amounts to, once the reader has answered. *)
Lemma load_file_read filespec numhdu dstobj struct :
  existsb (String.eqb (scheme (urlparse filespec))) ["file"; ""] = true ->
  pds4_read (path (urlparse filespec)) = inr struct ->
  load_file urlparse pds4_read filespec numhdu dstobj =
  match (match numhdu with
         | None => first_array struct 0
         | Some i => Some i
         end) with
  | None =>
      (inl (InvalidPDS4Data ("No image found in " ++ filespec)%string),
       [PDS4Read (path (urlparse filespec))])
  | Some i =>
      match py_index struct i with
      | None => (inl IndexError, [PDS4Read (path (urlparse filespec))])
      | Some s =>
          match normalize s (sdata s) with
          | inl e => (inl e, [PDS4Read (path (urlparse filespec))])
          | inr im =>
              (inr (im, i),
               PDS4Read (path (urlparse filespec)) ::
               (if dstobj then [SetData im] else []))
          end
      end
  end.
Proof.
  intros Hgate Hread. unfold load_file. rewrite Hgate. cbn [negb].
  unfold bind, emit, lift, raise, ret. rewrite Hread.
  destruct numhdu as [i|]; [|destruct (first_array struct 0) as [i|]];
    try reflexivity;
    (destruct (py_index struct i) as [s|]; [|reflexivity]);
    (destruct (normalize s (sdata s)) as [e|im]; [reflexivity|]);
    destruct dstobj; reflexivity.
Qed.

(** Without [numhdu] the loader takes the first array of the file: the
    index it returns is that of a structure which is an array, no
    structure before it is one, and the image returned is that
    structure's data, oriented. *)
Theorem load_file_first_array filespec dstobj struct im i :
  existsb (String.eqb (scheme (urlparse filespec))) ["file"; ""] = true ->
  pds4_read (path (urlparse filespec)) = inr struct ->
  result (load_file urlparse pds4_read filespec None dstobj) = inr (im, i) ->
  exists k s,
    i = Z.of_nat k /\ nth_error struct k = Some s /\ is_array s = true /\
    (forall j s', j < k -> nth_error struct j = Some s' ->
                  is_array s' = false) /\
    normalize s (sdata s) = inr im.
Proof.
  intros Hgate Hread. rewrite (load_file_read _ None _ struct Hgate Hread).
  destruct (first_array struct 0) as [i0|] eqn:Hfirst; [|discriminate].
  destruct (first_array_some struct 0 i0 Hfirst)
    as (k & s & -> & Hk & Harr & Hmin).
  rewrite Z.add_0_l, py_index_nat, Hk.
  destruct (normalize s (sdata s)) as [e|im'] eqn:Hn; [discriminate|].
  unfold result. cbn [fst]. intros [= <- <-].
  exists k, s. repeat split; assumption.
Qed.

(** A file without any array makes the loader raise InvalidPDS4Data "No
    image found in <filespec>"; the file has been read once and the
    destination object has received nothing. *)
Theorem load_file_no_array filespec dstobj struct :
  existsb (String.eqb (scheme (urlparse filespec))) ["file"; ""] = true ->
  pds4_read (path (urlparse filespec)) = inr struct ->
  Forall (fun s => is_array s = false) struct ->
  load_file urlparse pds4_read filespec None dstobj =
    (inl (InvalidPDS4Data ("No image found in " ++ filespec)%string),
     [PDS4Read (path (urlparse filespec))]).
Proof.
  intros Hgate Hread Hnone.
  rewrite (load_file_read _ None _ struct Hgate Hread).
  apply (first_array_none struct 0) in Hnone. now rewrite Hnone.
Qed.

(** The destination object receives data only from a load that succeeds:
    a failing load never calls [set_data], and a successful one calls it
    exactly once, after the read, with the very image it returns, and only
    if a destination object was given. *)
Theorem load_file_set_data filespec numhdu dstobj :
  (forall e,
     result (load_file urlparse pds4_read filespec numhdu dstobj) = inl e ->
     forall im,
       ~ In (SetData im)
            (trace (load_file urlparse pds4_read filespec numhdu dstobj))) /\
  (forall im i,
     result (load_file urlparse pds4_read filespec numhdu dstobj) = inr (im, i) ->
     trace (load_file urlparse pds4_read filespec numhdu dstobj) =
       PDS4Read (path (urlparse filespec)) ::
       (if dstobj then [SetData im] else [])).
Proof.
  destruct (existsb (String.eqb (scheme (urlparse filespec))) ["file"; ""])
    eqn:Hgate.
  - destruct (pds4_read (path (urlparse filespec))) as [err|struct] eqn:Hread.
    + unfold load_file. rewrite Hgate. cbn [negb].
      unfold bind, emit, lift, raise, ret, result, trace. rewrite Hread.
      cbn [fst snd app]. split; [|discriminate].
      intros e _ im Hin. simpl in Hin. intuition discriminate.
    + rewrite (load_file_read _ numhdu _ struct Hgate Hread).
      unfold result, trace.
      destruct (match numhdu with
                | Some i => Some i
                | None => first_array struct 0
                end) as [i|];
        [destruct (py_index struct i) as [s|];
         [destruct (normalize s (sdata s)) as [e|im]|]|];
        cbn [fst snd]; split; try discriminate;
        try (intros ? _ ? Hin; simpl in Hin; intuition discriminate).
      intros im' i' [= <- <-]. reflexivity.
  - unfold load_file. rewrite Hgate. cbn. split; [|discriminate].
    intros e _ im Hin. exact Hin.
Qed.

End LoadFile.

Lemma load_file_first_array_witness :
  exists k s,
    2%Z = Z.of_nat k /\
    nth_error [Files.table; Files.table; Files.image] k = Some s /\
    is_array s = true /\
    normalize s (sdata s) =
      inr (mk_ndarray [3; 4] [8; 9; 10; 11; 4; 5; 6; 7; 0; 1; 2; 3]%Z).
Proof.
  destruct (load_file_first_array Samples.urlparse Files.read_mixed
              "/data/mixed.xml" true [Files.table; Files.table; Files.image]
              (mk_ndarray [3; 4] [8; 9; 10; 11; 4; 5; 6; 7; 0; 1; 2; 3]%Z) 2%Z
              eq_refl eq_refl eq_refl)
    as (k & s & Hi & Hk & Harr & _ & Hn).
  exists k, s. repeat split; assumption.
Defined.

Lemma load_file_no_array_witness :
  load_file Samples.urlparse Files.read_tables "/data/tables.xml" None true =
    (inl (InvalidPDS4Data "No image found in /data/tables.xml"),
     [PDS4Read "/data/tables.xml"]).
Proof.
  apply (load_file_no_array Samples.urlparse Files.read_tables
           "/data/tables.xml" true [Files.table; Files.table]
           eq_refl eq_refl).
  repeat constructor.
Defined.

Lemma load_file_set_data_witness :
  trace (load_file Samples.urlparse Files.read_mixed "/data/mixed.xml"
           None true) =
  [PDS4Read "/data/mixed.xml";
   SetData (mk_ndarray [3; 4] [8; 9; 10; 11; 4; 5; 6; 7; 0; 1; 2; 3]%Z)].
Proof.
  destruct (load_file_set_data Samples.urlparse Files.read_mixed
              "/data/mixed.xml" None true) as [_ H].
  exact (H _ 2%Z eq_refl).
Defined.

(** ** Rearranging views: the buffer is permuted, mirrors undo themselves *)

Lemma in_indices_in_range sh idx :
  In idx (indices sh) -> in_range sh idx = true.
Proof.
  revert idx. induction sh as [|n sh IH]; intros idx; simpl.
  - intros [<-|[]]. reflexivity.
  - rewrite in_flat_map. intros (i & Hi & Hidx).
    apply in_map_iff in Hidx as (idx' & <- & Hidx').
    apply in_seq in Hi. simpl. rewrite (IH _ Hidx'), andb_true_r.
    apply Nat.ltb_lt. lia.
Qed.

Lemma in_range_in_indices sh idx :
  in_range sh idx = true -> In idx (indices sh).
Proof. intros H. eapply nth_error_In, nth_error_indices, H. Qed.

Lemma offset_inj sh i j :
  in_range sh i = true -> in_range sh j = true ->
  offset sh i = offset sh j -> i = j.
Proof.
  intros Hi Hj E. pose proof (nth_error_indices _ _ Hi) as H1.
  pose proof (nth_error_indices _ _ Hj) as H2. rewrite E in H1. congruence.
Qed.

Lemma indices_NoDup sh : List.NoDup (indices sh).
Proof.
  apply (NoDup_map_inv (offset sh)). rewrite offset_indices.
  apply seq_NoDup.
Qed.

Lemma size_app sh1 sh2 : size (sh1 ++ sh2) = size sh1 * size sh2.
Proof.
  induction sh1 as [|n sh1 IH]; simpl; [lia|].
  unfold size in *. rewrite IH. lia.
Qed.

Lemma size_rev sh : size (rev sh) = size sh.
Proof.
  induction sh as [|n sh IH]; simpl; [reflexivity|].
  rewrite size_app, IH. unfold size. simpl. lia.
Qed.

Lemma in_range_app sh1 idx1 sh2 idx2 :
  length sh1 = length idx1 ->
  in_range (sh1 ++ sh2) (idx1 ++ idx2) =
  in_range sh1 idx1 && in_range sh2 idx2.
Proof.
  revert idx1. induction sh1 as [|n sh1 IH]; intros [|i idx1]; simpl;
    try discriminate.
  - reflexivity.
  - intros [= Hl]. now rewrite (IH _ Hl), andb_assoc.
Qed.

Lemma in_range_length sh idx :
  in_range sh idx = true -> length sh = length idx.
Proof.
  revert idx. induction sh as [|n sh IH]; intros [|i idx]; simpl;
    try discriminate; [reflexivity|].
  intros H. apply andb_true_iff in H as [_ H]. now rewrite (IH _ H).
Qed.

Lemma in_range_rev sh idx :
  in_range sh idx = true -> in_range (rev sh) (rev idx) = true.
Proof.
  revert idx. induction sh as [|n sh IH]; intros [|i idx]; simpl;
    try discriminate; [reflexivity|].
  intros H. apply andb_true_iff in H as [Hi H].
  rewrite in_range_app
    by (rewrite !length_rev; now apply in_range_length).
  rewrite (IH _ H). simpl. now rewrite Hi.
Qed.

Lemma mirror_in_range k sh idx :
  in_range sh idx = true -> in_range sh (mirror k sh idx) = true.
Proof.
  revert k idx. induction sh as [|n sh IH]; intros k [|i idx]; simpl;
    try discriminate; [destruct k; reflexivity|].
  intros H. apply andb_true_iff in H as [Hi H]. apply Nat.ltb_lt in Hi.
  destruct k as [|k]; simpl.
  - rewrite H, andb_true_r. apply Nat.ltb_lt. lia.
  - rewrite (IH _ _ H), andb_true_r. now apply Nat.ltb_lt.
Qed.

Lemma mirror_mirror k sh idx :
  in_range sh idx = true -> mirror k sh (mirror k sh idx) = idx.
Proof.
  revert k idx. induction sh as [|n sh IH]; intros k [|i idx]; simpl;
    try discriminate; [destruct k; reflexivity|].
  intros H. apply andb_true_iff in H as [Hi H]. apply Nat.ltb_lt in Hi.
  destruct k as [|k]; simpl.
  - f_equal. lia.
  - now rewrite (IH _ _ H).
Qed.

Lemma mirror_comm sh idx :
  mirror 0 sh (mirror 1 sh idx) = mirror 1 sh (mirror 0 sh idx).
Proof.
  destruct sh as [|m [|n sh]], idx as [|i [|j idx]]; reflexivity.
Qed.

Section Rearrange.
Context {A : Type}.
Implicit Types (a raw : ndarray A) (s : Structure A).

(** A view through a one-to-one index map holds the elements of its
    base, each as often. *)
Lemma view_perm sh' f a :
  wf a -> size sh' = size (shape a) ->
  (forall idx, in_range sh' idx = true -> in_range (shape a) (f idx) = true) ->
  (forall i j, in_range sh' i = true -> in_range sh' j = true ->
               f i = f j -> i = j) ->
  Permutation (data a) (data (view sh' f a)).
Proof.
  unfold wf, view. intros Hwf Hsz Hin Hinj. simpl.
  destruct (data a) as [|d l] eqn:E; [constructor|].
  set (dt := d :: l) in *.
  apply (Permutation_trans
           (l' := map (fun p => nth p dt d) (seq 0 (length dt))));
    [now rewrite map_nth_seq|].
  rewrite <- (map_map (fun idx => offset (shape a) (f idx))
                      (fun p => nth p dt d)).
  apply Permutation_map. symmetry. apply NoDup_Permutation_bis.
  - apply NoDup_map_NoDup_ForallPairs; [|apply indices_NoDup].
    intros i j Hi Hj Ho. apply in_indices_in_range in Hi, Hj.
    apply Hinj; trivial. eapply offset_inj; eauto.
  - rewrite length_seq, length_map, length_indices. lia.
  - intros p Hp. apply in_map_iff in Hp as (idx & <- & Hidx).
    apply in_seq. apply in_indices_in_range in Hidx.
    specialize (Hin _ Hidx). apply offset_lt in Hin. lia.
Qed.

(** A view of a view is the view through the composed index map. *)
Lemma view_view sh1 f1 sh2 f2 a :
  (forall idx, in_range sh2 idx = true -> in_range sh1 (f2 idx) = true) ->
  view sh2 f2 (view sh1 f1 a) = view sh2 (fun idx => f1 (f2 idx)) a.
Proof.
  intros Hin. unfold view. simpl. f_equal.
  destruct (data a) as [|d l]; [reflexivity|].
  set (g := fun idx => nth (offset (shape a) (f1 idx)) (d :: l) d).
  assert (Hnil : indices sh1 = [] -> indices sh2 = []).
  { intros E. destruct (indices sh2) as [|j0 l2] eqn:Ej; [reflexivity|].
    assert (Hj : In j0 (indices sh2)) by (rewrite Ej; now left).
    apply in_indices_in_range, Hin, in_range_in_indices in Hj.
    rewrite E in Hj. destruct Hj. }
  destruct (map g (indices sh1)) as [|d' l'] eqn:Em.
  - apply map_eq_nil in Em. now rewrite (Hnil Em).
  - rewrite <- Em. apply map_ext_in. intros idx Hidx.
    apply nth_error_nth. rewrite nth_error_map.
    rewrite nth_error_indices
      by (apply Hin; now apply in_indices_in_range).
    reflexivity.
Qed.

Lemma T_perm a : wf a -> wf (T a) /\ Permutation (data a) (data (T a)).
Proof.
  intros Hwf. unfold T. split.
  - apply wf_view; [exact Hwf | apply size_rev].
  - apply view_perm; [exact Hwf | apply size_rev | |].
    + intros idx H. apply in_range_rev in H.
      now rewrite rev_involutive in H.
    + intros i j _ _ E. apply (f_equal (@rev nat)) in E.
      now rewrite !rev_involutive in E.
Qed.

Lemma flip_perm k a b :
  wf a -> flip k a = inr b ->
  wf b /\ shape b = shape a /\ Permutation (data a) (data b).
Proof.
  intros Hwf. unfold flip. destruct (k <? ndim a); [|discriminate].
  intros [= <-]. split; [|split].
  - now apply wf_view.
  - reflexivity.
  - apply view_perm; [exact Hwf | reflexivity | |].
    + intros idx. apply mirror_in_range.
    + intros i j Hi Hj E. apply (f_equal (mirror k (shape a))) in E.
      now rewrite !mirror_mirror in E.
Qed.

Lemma reversal_index_in_range (rtl ttb : bool) sh idx :
  in_range sh idx = true ->
  in_range sh ((if rtl then mirror 1 sh else fun i => i)
                 ((if ttb then mirror 0 sh else fun i => i) idx)) = true.
Proof.
  intros H. destruct rtl, ttb; auto using mirror_in_range.
Qed.

Lemma reversal_index_twice (rtl ttb : bool) sh idx :
  in_range sh idx = true ->
  (if rtl then mirror 1 sh else fun i => i)
    ((if ttb then mirror 0 sh else fun i => i)
       ((if rtl then mirror 1 sh else fun i => i)
          ((if ttb then mirror 0 sh else fun i => i) idx))) = idx.
Proof.
  intros H. destruct rtl, ttb;
    rewrite <- ?mirror_comm, ?mirror_mirror; auto using mirror_in_range.
Qed.

(** The two reversals of [load_file], on an array that has both axes,
    as one view. *)
Lemma reversals_view a (rtl ttb : bool) :
  wf a -> 2 <= ndim a ->
  match (if rtl then flip 1 a else inr a) with
  | inl e => inl e
  | inr im => if ttb then flip 0 im else inr im
  end =
  inr (view (shape a)
         (fun idx => (if rtl then mirror 1 (shape a) else fun i => i)
                       ((if ttb then mirror 0 (shape a) else fun i => i) idx))
         a).
Proof.
  intros Hwf Hrank. unfold flip.
  assert (H1 : (1 <? ndim a) = true) by (apply Nat.ltb_lt; lia).
  assert (H0 : (0 <? ndim a) = true) by (apply Nat.ltb_lt; lia).
  destruct rtl, ttb; rewrite ?H1; unfold ndim in *; cbn [shape view];
    rewrite ?H0.
  - f_equal. apply view_view. intros idx. apply mirror_in_range.
  - reflexivity.
  - reflexivity.
  - f_equal. symmetry. now apply view_id.
Qed.

(** Orientation never invents, drops or duplicates a value: whatever
    the rank of the array and whatever the label says, an orientation
    that succeeds returns the elements of the raw array, each as often
    as it occurs there, in an array of the same axes' lengths, in the
    same or in reverse order. *)
Theorem normalize_permutes s raw out :
  wf raw ->
  normalize s raw = inr out ->
  wf out /\
  Permutation (data raw) (data out) /\
  (shape out = shape raw \/ shape out = rev (shape raw)).
Proof.
  intros Hwf. unfold normalize.
  destruct (get_axis_array s _) as [haxis|]; [|discriminate]. cbv zeta.
  set (im := if (sequence_number haxis =? 1)%Z then T raw else raw).
  assert (Him : wf im /\ Permutation (data raw) (data im) /\
                (shape im = shape raw \/ shape im = rev (shape raw))).
  { unfold im. destruct (sequence_number haxis =? 1)%Z.
    - destruct (T_perm raw Hwf) as [Hw Hp]. repeat split; auto.
    - repeat split; auto. }
  destruct Him as (Hw & Hp & Hs). clearbody im.
  assert (Hh : forall im1,
             (if contains "Right to Left"
                   (horizontal_display_direction (Display_Direction s))
              then flip 1 im else inr im) = inr im1 ->
             wf im1 /\ shape im1 = shape im /\
             Permutation (data im) (data im1)).
  { intros im1. destruct (contains "Right to Left" _).
    - now apply flip_perm.
    - intros [= <-]. repeat split; auto. }
  destruct (if contains "Right to Left" _ then flip 1 im else inr im)
    as [e|im1]; [discriminate|].
  destruct (Hh im1 eq_refl) as (Hw1 & Hs1 & Hp1).
  destruct (contains "Top to Bottom" _).
  - intros Hf. destruct (flip_perm 0 im1 out Hw1 Hf) as (Hw2 & Hs2 & Hp2).
    split; [exact Hw2|]. split.
    + eapply Permutation_trans; [exact Hp|].
      eapply Permutation_trans; [exact Hp1 | exact Hp2].
    + rewrite Hs2, Hs1. exact Hs.
  - intros [= <-]. split; [exact Hw1|]. split.
    + eapply Permutation_trans; [exact Hp | exact Hp1].
    + rewrite Hs1. exact Hs.
Qed.

(** Without a transposition the orientation undoes itself: when the
    horizontal axis does not have sequence number 1, orienting an array
    of rank 2 or more succeeds, and orienting the result again under the
    same label gives back the raw array. *)
Theorem normalize_twice s raw haxis :
  get_axis_array s (horizontal_display_axis (Display_Direction s))
    = Some haxis ->
  sequence_number haxis <> 1%Z ->
  wf raw -> 2 <= ndim raw ->
  exists out, normalize s raw = inr out /\ normalize s out = inr raw.
Proof.
  intros Hax Hseq Hwf Hrank. unfold normalize. rewrite Hax. cbv zeta.
  apply Z.eqb_neq in Hseq. rewrite Hseq.
  rewrite (reversals_view raw _ _ Hwf Hrank).
  eexists. split; [reflexivity|].
  rewrite reversals_view; cycle 1.
  - apply wf_view; [exact Hwf | reflexivity].
  - exact Hrank.
  - cbn [shape view]. f_equal. rewrite view_view.
    + apply view_id; [exact Hwf|]. intros idx Hidx.
      apply reversal_index_twice. now apply in_indices_in_range.
    + intros idx. apply reversal_index_in_range.
Qed.

End Rearrange.

Lemma normalize_permutes_witness :
  Permutation [1; 2; 3; 4; 5; 6; 7; 8]%Z [3; 7; 1; 5; 4; 8; 2; 6]%Z.
Proof.
  apply (normalize_permutes
           (Samples.label [("Sample", 1%Z); ("Line", 2%Z); ("Band", 3%Z)]
              "Right to Left" "Bottom to Top" Samples.cube_2x2x2)
           Samples.cube_2x2x2
           (mk_ndarray [2; 2; 2] [3; 7; 1; 5; 4; 8; 2; 6]%Z)
           eq_refl eq_refl).
Defined.

Lemma normalize_twice_witness :
  exists out,
    normalize (Samples.label [("Line", 1%Z); ("Sample", 2%Z)]
                 "Right to Left" "Top to Bottom" Samples.image_3x4)
              Samples.image_3x4 = inr out /\
    normalize (Samples.label [("Line", 1%Z); ("Sample", 2%Z)]
                 "Right to Left" "Top to Bottom" Samples.image_3x4)
              out = inr Samples.image_3x4.
Proof.
  apply (normalize_twice
           (Samples.label [("Line", 1%Z); ("Sample", 2%Z)]
              "Right to Left" "Top to Bottom" Samples.image_3x4)
           Samples.image_3x4 {| sequence_number := 2 |} eq_refl).
  - discriminate.
  - reflexivity.
  - unfold ndim. simpl. lia.
Defined.

(** ** The browser: what a listing never does, icons, the tree *)

Section BrowserMore.
Variable os : Host.

Lemma browse_invalid st path :
  isdir os (browse_dir os path) = false ->
  browse os st path =
  inr (call st [ShowError ("Not a valid path: " ++ browse_dir os path)%string]).
Proof.
  intros Hdir. unfold browse. unfold browse_dir in *. revert Hdir.
  destruct (isdir os path).
  - intros ->. reflexivity.
  - destruct (OsPath.split path) as [d g]. cbn [fst]. intros ->. reflexivity.
Qed.

Lemma browse_total st path :
  exists st',
    browse os st path = inr st' /\
    (forall p, In (LoadFile p) (calls st') -> In (LoadFile p) (calls st)) /\
    columns st' = columns st /\ viewer st' = viewer st.
Proof.
  destruct (isdir os (browse_dir os path)) eqn:Hdir.
  - destruct (browse_ok os st path Hdir) as [tree ->].
    eexists. split; [reflexivity|]. cbn. auto.
  - rewrite (browse_invalid st path Hdir).
    eexists. split; [reflexivity|]. cbn. repeat split.
    intros p Hin. apply in_app_or in Hin as [Hin|[Hin|[]]];
      [exact Hin | discriminate].
Qed.

(** [makelisting] raises nothing of its own on rows made by [get_info],
    whatever the paths are and whatever [os.stat] answered: the "No key
    for tuple" exception and the missing-attribute errors of [file_icon]
    cannot occur.  Every row gets its icon and keeps what else it held,
    the entry shows the path, and the current path and the calls made to
    the viewer stay as they are. *)
Theorem makelisting_listed st cols (l : list string) path :
  jumpinfo st = map (get_info os cols) l ->
  exists st',
    makelisting st path = inr st' /\
    jumpinfo st' = map with_icon (jumpinfo st) /\
    Forall2 (fun (b b' : Bunch) =>
               is_Some (b' !! "icon") /\
               forall k, k <> "icon" -> b' !! k = b !! k)
            (jumpinfo st) (jumpinfo st') /\
    entry st' = path /\ curpath st' = curpath st /\ calls st' = calls st.
Proof.
  intros Hj. unfold makelisting. rewrite Hj.
  destruct (make_tree_ok (map (get_info os cols) l) ∅
              (get_info_listable os cols l)) as [t ->].
  eexists. split; [reflexivity|]. cbn [jumpinfo entry curpath calls set_view].
  split; [reflexivity|]. split; [|auto].
  generalize (get_info_listable os cols l).
  generalize (map (get_info os cols) l). intros bs Hbs.
  induction Hbs as [|b bs [[ty Hty] _] _ IH]; cbn [map]; constructor;
    [|exact IH].
  split; [|intros k Hk; now apply with_icon_lookup].
  unfold with_icon, file_icon. rewrite Hty.
  destruct (is_str ty "dir"); [|destruct (is_str ty "xml")];
    unfold update; cbn [fold_left fst snd]; rewrite lookup_insert_eq; eauto.
Qed.

Lemma ftype_cases p :
  ftype os p =
  if isdir os p then "dir"
  else if islink os p then "link"
  else if String.eqb
            (lower (snd (OsPath.splitext (snd (OsPath.split p))))) ".xml"
       then "xml" else "file".
Proof.
  unfold ftype. destruct (OsPath.split p) as [d f]. cbn [snd].
  destruct (OsPath.splitext f) as [n e]. reflexivity.
Qed.

Lemma with_icon_get_info cols p :
  with_icon (get_info os cols p) !! "icon" =
  Some (VIcon (if isdir os p then folderpb
               else if islink os p then filepb
               else if String.eqb
                         (lower (snd (OsPath.splitext (snd (OsPath.split p)))))
                         ".xml"
                    then imagepb else filepb)).
Proof.
  unfold with_icon, file_icon. rewrite get_info_type, ftype_cases.
  destruct (isdir os p);
    [|destruct (islink os p);
      [|destruct (String.eqb
                    (lower (snd (OsPath.splitext (snd (OsPath.split p)))))
                    ".xml")]];
    cbn [is_str String.eqb Ascii.eqb Bool.eqb]; bunch_lookup.
Qed.

(** The icon of every row of a listing follows the kind of its path: the
    folder icon for a directory (also for a link to one), the image icon
    for a path that is neither directory nor link and whose extension is
    [.xml] in any letter case, the plain file icon for everything else,
    symbolic links to labels included. *)
Theorem browse_icons st path st' :
  isdir os (browse_dir os path) = true ->
  browse os st path = inr st' ->
  Forall2 (fun p (b : Bunch) =>
             b !! "path" = Some (VStr p) /\
             b !! "icon" =
               Some (VIcon
                 (if isdir os p then folderpb
                  else if islink os p then filepb
                  else if String.eqb
                            (lower (snd (OsPath.splitext
                                           (snd (OsPath.split p)))))
                            ".xml"
                       then imagepb else filepb)))
          (browse_filelist os path) (jumpinfo st').
Proof.
  intros Hdir. destruct (browse_ok os st path Hdir) as [tree ->].
  intros Hb.
  assert (Hj : jumpinfo st' =
               map with_icon
                 (map (get_info os (columns st)) (browse_filelist os path)))
    by (injection Hb as <-; reflexivity).
  rewrite Hj. generalize (browse_filelist os path). intros l.
  induction l as [|p l IH]; cbn [map]; constructor; [|exact IH].
  split.
  - rewrite with_icon_lookup by discriminate. apply get_info_path.
  - apply with_icon_get_info.
Qed.

Lemma find_snoc {X : Type} (P : X -> bool) (l : list X) (x : X) :
  find P (l ++ [x]) =
  match find P l with
  | Some y => Some y
  | None => if P x then Some x else None
  end.
Proof.
  induction l as [|y l IH]; simpl; [reflexivity|].
  destruct (P y); [reflexivity | exact IH].
Qed.

(** The tree [makelisting] builds: under a name it holds the last bunch
    of the list with that name, or what it held before. *)
Lemma make_tree_lookup (ji ji' : list Bunch) (tree t : gmap string Bunch) n :
  make_tree ji tree = inr (ji', t) ->
  t !! n =
  match find (fun b : Bunch =>
                match b !! "name" with
                | Some v => is_str v n
                | None => false
                end) (rev ji') with
  | Some b => Some b
  | None => tree !! n
  end.
Proof.
  revert ji' tree. induction ji as [|b ji IH]; intros ji' tree; cbn [make_tree].
  - intros [= <- <-]. reflexivity.
  - destruct (file_icon b) as [e|icon]; [discriminate|].
    destruct (update b [("icon", VIcon icon)] !! "name") as [[k| | |]|] eqn:Hk;
      try discriminate.
    destruct (make_tree ji _) as [e|[ji2 t2]] eqn:Hrest; [discriminate|].
    intros [= <- <-]. rewrite (IH _ _ Hrest). cbn [rev].
    rewrite find_snoc.
    destruct (find _ (rev ji2)) as [y|]; [reflexivity|].
    cbv beta.
    change (<["icon":=VIcon icon]> b) with (update b [("icon", VIcon icon)]).
    rewrite Hk. cbn [is_str].
    destruct (String.eqb_spec k n) as [->|Hne].
    + apply lookup_insert_eq.
    + apply lookup_insert_ne. exact Hne.
Qed.

(** The table shows one row per name: after a listing, the tree holds
    under each name the last listed bunch of that name, and nothing
    under a name no listed bunch has.  An entry whose name occurs again
    later in the listing is not in the table. *)
Theorem browse_tree st path st' n :
  isdir os (browse_dir os path) = true ->
  browse os st path = inr st' ->
  treeview st' !! n =
  find (fun b : Bunch =>
          match b !! "name" with
          | Some v => is_str v n
          | None => false
          end) (rev (jumpinfo st')).
Proof.
  intros Hdir. unfold browse.
  assert (Hd : isdir os (abspath os
                 (if isdir os path then path else (OsPath.split path).1))
               = true) by exact Hdir.
  destruct (isdir os path).
  - rewrite Hd. cbn [negb]. unfold makelisting.
    destruct (make_tree _ ∅) as [e|[ji t]] eqn:Ht; [discriminate|].
    intros [= <-]. cbn [treeview jumpinfo set_view].
    rewrite (make_tree_lookup _ _ _ _ n Ht), lookup_empty.
    now destruct (find _ (rev ji)).
  - destruct (OsPath.split path) as [d g]. cbn [fst] in Hd.
    rewrite Hd. cbn [negb]. unfold makelisting.
    destruct (make_tree _ ∅) as [e|[ji t]] eqn:Ht; [discriminate|].
    intros [= <-]. cbn [treeview jumpinfo set_view].
    rewrite (make_tree_lookup _ _ _ _ n Ht), lookup_empty.
    now destruct (find _ (rev ji)).
Qed.

(** A text that names no directory (after its surrounding blanks and one
    trailing [*] are dropped) is a load request: the callback of the
    path entry raises nothing of its own and reports no error on it
    (what the image loader does with a path is the viewer's); it loads
    every match of the file part, in the order the expansion gives them
    and each with its suffix, nothing when there is no match or no
    viewer; the listing, the current path and the entry stay as they
    are. *)
Theorem browse_cb_loads st text :
  isdir os (strip_last "*" (strip text)) = false ->
  exists st',
    browse_cb os st text = inr st' /\
    calls st' =
      calls st ++
      (if viewer st
       then map (fun f =>
                   LoadFile
                     (f ++ get_hdu_suffix os
                             (numhdu (get_fileinfo os
                                        (strip_last "*" (strip text))))))
                (glob os (filepath (get_fileinfo os
                                      (strip_last "*" (strip text)))))
       else []) /\
    jumpinfo st' = jumpinfo st /\ curpath st' = curpath st /\
    entry st' = entry st /\ treeview st' = treeview st.
Proof.
  intros Hdir. unfold browse_cb, open_files. rewrite Hdir.
  eexists. split; [reflexivity|]. unfold load_paths.
  destruct (viewer st); cbn.
  - rewrite map_map. auto.
  - rewrite app_nil_r. auto.
Qed.

End BrowserMore.

Lemma Forall2_map_snd {X Y Z : Type} (P : X -> Y -> Prop)
    (f : Y -> Z) (g : X -> Z) l l' :
  Forall2 (fun x y => P x y /\ f y = g x) l l' -> map f l' = map g l.
Proof.
  induction 1 as [|x y l l' [_ E] _ IH]; simpl; [reflexivity|].
  now rewrite E, IH.
Qed.

Lemma browse_icons_witness :
  exists st',
    browse Hosts.tmp Hosts.fresh "/tmp" = inr st' /\
    map (fun b : Bunch => b !! "icon") (jumpinfo st') =
    map (fun i => Some (VIcon i))
      [folderpb; folderpb; imagepb; imagepb; filepb; filepb].
Proof.
  destruct (browse_ok Hosts.tmp Hosts.fresh "/tmp" eq_refl) as [tree Hb].
  eexists. split; [exact Hb|].
  pose proof (browse_icons Hosts.tmp Hosts.fresh "/tmp" _ eq_refl Hb) as H.
  etransitivity; [exact (Forall2_map_snd _ _ _ _ _ H) | reflexivity].
Defined.

Lemma browse_tree_witness :
  exists st',
    browse Hosts.tmp Hosts.fresh "/tmp" = inr st' /\
    match treeview st' !! "Data2.XML" with
    | Some b => b !! "path"
    | None => None
    end = Some (VStr "/tmp/Data2.XML").
Proof.
  destruct (browse_ok Hosts.tmp Hosts.fresh "/tmp" eq_refl) as [tree Hb].
  eexists. split; [exact Hb|].
  rewrite (browse_tree Hosts.tmp Hosts.fresh "/tmp" _ "Data2.XML"
             eq_refl Hb).
  vm_compute. reflexivity.
Defined.

Lemma browse_cb_loads_witness :
  exists st',
    browse_cb Hosts.tmp Hosts.fresh "  /tmp/data*.xml " = inr st' /\
    calls st' = [LoadFile "/tmp/data1.xml"] /\
    jumpinfo st' = [] /\ entry st' = "".
Proof.
  destruct (browse_cb_loads Hosts.tmp Hosts.fresh "  /tmp/data*.xml " eq_refl)
    as (st' & Hb & Hcalls & Hji & _ & Hentry & _).
  exists st'. repeat split; assumption.
Defined.

(** ** The Load button, the double click and the thumbnails *)

Section ButtonFacts.
Variable os : Host.
Variable isfile : string -> bool.
Variable path_exists : string -> bool.
Variable name_image_from_path : string -> string.

(** The Load button looks at the path entry first.  As long as its text
    names no directory (after str.strip and after one trailing [*] is
    dropped), the button does what the Return key does in the entry: it
    loads the matches of the text and never looks at the selected rows. *)
Theorem load_cb_text_first st :
  isdir os (strip_last "*" (strip (entry st))) = false ->
  forall select_dict,
    load_cb os isfile st select_dict = browse_cb os st (entry st) /\
    load_cb os isfile st select_dict = load_cb os isfile st [].
Proof.
  intros Hdir sel. unfold load_cb, browse_cb, open_files.
  rewrite Hdir. split; reflexivity.
Qed.

(** When the text of the entry names a directory, the Load button loads
    the selected rows: unless the selection is a single directory, it
    loads the selected paths that are regular files, in the order of the
    selection, and nothing else; it reports no error and leaves the
    listing as it is. *)
Theorem load_cb_selection st select_dict paths :
  isdir os (strip_last "*" (strip (entry st))) = true ->
  paths_of select_dict = inr paths ->
  length paths <> 1 \/ isdir os (hd "" paths) = false ->
  exists st',
    load_cb os isfile st select_dict = inr st' /\
    calls st' =
      calls st ++
      (if viewer st then map LoadFile (List.filter isfile paths) else []) /\
    (forall p, In p (List.filter isfile paths) ->
               In p paths /\ isfile p = true) /\
    jumpinfo st' = jumpinfo st /\ curpath st' = curpath st /\
    entry st' = entry st /\ treeview st' = treeview st.
Proof.
  intros Hdir Hsel Hone. unfold load_cb, open_files. rewrite Hdir, Hsel.
  assert (Hb : (length paths =? 1) && isdir os (hd "" paths) = false).
  { destruct Hone as [Hn | ->]; [|apply andb_false_r].
    apply Nat.eqb_neq in Hn. now rewrite Hn. }
  rewrite Hb. eexists. split; [reflexivity|]. unfold load_paths.
  split; [|split].
  - destruct (viewer st); cbn; [reflexivity | now rewrite app_nil_r].
  - intros p Hp. now apply filter_In in Hp.
  - destruct (viewer st); cbn; auto.
Qed.

Lemma open_file_returns st path :
  exists st',
    open_file os path_exists st path = inr st' /\
    forall p, In (LoadFile p) (calls st') ->
      In (LoadFile p) (calls st) \/
      exists q, p = ("file://" ++ q)%string /\
                isdir os q = false /\ path_exists q = true /\
                (path <> ".." -> q = path) /\
                jumpinfo st' = jumpinfo st /\ treeview st' = treeview st.
Proof.
  unfold open_file.
  set (q := if String.eqb path ".." then _ else path).
  assert (Hq : path <> ".." -> q = path).
  { intros Hne. unfold q. apply String.eqb_neq in Hne. now rewrite Hne. }
  clearbody q.
  destruct (isdir os q) eqn:Hdir.
  - destruct (browse_total os st (OsPath.join q "*")) as (st' & -> & Hc & _).
    exists st'. split; [reflexivity|]. intros p Hp. left. now apply Hc.
  - destruct (path_exists q) eqn:Hex.
    + eexists. split; [reflexivity|]. intros p. unfold load_paths.
      destruct (viewer st); cbn; [|now left].
      intros Hp. apply in_app_or in Hp as [Hp|[[= <-]|[]]]; [now left|].
      right. exists q. repeat split; auto.
    + destruct (browse_total os st q) as (st' & -> & Hc & _).
      exists st'. split; [reflexivity|]. intros p Hp. left. now apply Hc.
Qed.

(** What a double click does with its path (for the argument [..], the
    parent of the current directory joined with the current pattern): a
    directory is browsed with the pattern [*]; a path that exists and is
    no directory is handed to the loader as the URL [file://<path>], once,
    and the listing stays as it is; a path that does not exist is browsed
    as a pattern.  Browsing loads nothing: it adds no call, or one error
    message. *)
Theorem open_file_cases st path :
  let target :=
    if String.eqb path ".."
    then OsPath.join
           (OsPath.join (fst (OsPath.split (curpath st))) "..")
           (snd (OsPath.split (curpath st)))
    else path in
  (isdir os target = true ->
   open_file os path_exists st path =
   browse os st (OsPath.join target "*")) /\
  (isdir os target = false -> path_exists target = true ->
   exists st',
     open_file os path_exists st path = inr st' /\
     calls st' =
       calls st ++
       (if viewer st then [LoadFile ("file://" ++ target)] else []) /\
     jumpinfo st' = jumpinfo st /\ curpath st' = curpath st /\
     entry st' = entry st /\ treeview st' = treeview st) /\
  (isdir os target = false -> path_exists target = false ->
   open_file os path_exists st path = browse os st target) /\
  (forall p st',
     browse os st p = inr st' ->
     calls st' = calls st \/
     exists msg, calls st' = calls st ++ [ShowError msg]).
Proof.
  unfold open_file. cbv zeta.
  destruct (OsPath.split (curpath st)) as [curdir curglob]. cbn [fst snd].
  assert (E : (if String.eqb path ".."
               then OsPath.join (OsPath.join curdir path) curglob
               else path) =
              (if String.eqb path ".."
               then OsPath.join (OsPath.join curdir "..") curglob
               else path))
    by (destruct (String.eqb_spec path "..") as [->|_]; reflexivity).
  rewrite E. clear E.
  set (q := if String.eqb path ".." then _ else path). clearbody q.
  split; [|split; [|split]].
  - now intros ->.
  - intros -> ->. eexists. split; [reflexivity|]. unfold load_paths.
    destruct (viewer st); cbn; [auto | rewrite app_nil_r; auto].
  - now intros -> ->.
  - intros p st' Hb. destruct (isdir os (browse_dir os p)) eqn:Hdir.
    + destruct (browse_ok os st p Hdir) as [tree Hok].
      rewrite Hok in Hb. injection Hb as <-. now left.
    + rewrite (browse_invalid os st p Hdir) in Hb. injection Hb as <-.
      right. eexists. reflexivity.
Qed.

(** "Make Thumbs" after a listing works on what is listed: it makes one
    info per row of the listing below the parent row, in the order of
    the rows, directories included. *)
Theorem make_thumbs_listing st path st' :
  isdir os (browse_dir os path) = true ->
  browse os st path = inr st' ->
  map (fun b : Bunch => b !! "path") (tl (jumpinfo st')) =
  map (fun info => Some (VStr (snd info)))
      (make_thumbs os name_image_from_path st') /\
  map fst (make_thumbs os name_image_from_path st') =
  map name_image_from_path (map snd (make_thumbs os name_image_from_path st')).
Proof.
  intros Hdir. destruct (browse_ok os st path Hdir) as [tree ->].
  intros Hb.
  assert (Hj : jumpinfo st' =
               map with_icon
                 (map (get_info os (columns st)) (browse_filelist os path)))
    by (injection Hb as <-; reflexivity).
  assert (Hc : curpath st' = browse_pattern os path)
    by (injection Hb as <-; reflexivity).
  unfold make_thumbs, add_info. rewrite Hj, Hc. unfold browse_filelist.
  cbn [map tl]. rewrite !map_map. split; [|reflexivity].
  apply map_ext. intros p. cbn [snd].
  rewrite with_icon_lookup by discriminate. apply get_info_path.
Qed.

End ButtonFacts.

Lemma load_cb_text_first_witness :
  load_cb Hosts.tmp (fun p => negb (isdir Hosts.tmp p))
    (set_entry Hosts.fresh "/tmp/data*.xml")
    [("notes.txt", get_info Hosts.tmp Hosts.default_columns "/tmp/notes.txt")]
  = browse_cb Hosts.tmp (set_entry Hosts.fresh "/tmp/data*.xml")
      "/tmp/data*.xml".
Proof.
  exact (proj1 (load_cb_text_first Hosts.tmp
                  (fun p => negb (isdir Hosts.tmp p))
                  (set_entry Hosts.fresh "/tmp/data*.xml") eq_refl _)).
Defined.

Lemma load_cb_selection_witness :
  exists st',
    load_cb Hosts.tmp (fun p => negb (isdir Hosts.tmp p))
      (set_entry Hosts.fresh "/tmp")
      [("data.xml", <["path" := VStr "/tmp/data.xml"]> ∅);
       ("data1.xml", <["path" := VStr "/tmp/data1.xml"]> ∅)] = inr st' /\
    calls st' = [LoadFile "/tmp/data1.xml"].
Proof.
  assert (Hsel : paths_of
                   [("data.xml", <["path" := VStr "/tmp/data.xml"]> ∅);
                    ("data1.xml", <["path" := VStr "/tmp/data1.xml"]> ∅)]
                 = inr ["/tmp/data.xml"; "/tmp/data1.xml"])
    by (vm_compute; reflexivity).
  destruct (load_cb_selection Hosts.tmp (fun p => negb (isdir Hosts.tmp p))
              (set_entry Hosts.fresh "/tmp") _ _ eq_refl Hsel
              (or_introl (fun H => Nat.neq_succ_diag_l 1 H)))
    as (st' & Hl & Hc & _).
  exists st'. split; [exact Hl | exact Hc].
Defined.

Lemma make_thumbs_listing_witness :
  exists st',
    browse Hosts.tmp Hosts.fresh "/tmp" = inr st' /\
    map (fun b : Bunch => b !! "path") (tl (jumpinfo st')) =
    map (fun p => Some (VStr p))
      ["/tmp/data.xml"; "/tmp/data1.xml"; "/tmp/Data2.XML";
       "/tmp/link"; "/tmp/notes.txt"].
Proof.
  destruct (browse_ok Hosts.tmp Hosts.fresh "/tmp" eq_refl) as [tree Hb].
  eexists. split; [exact Hb|].
  etransitivity;
    [exact (proj1 (make_thumbs_listing Hosts.tmp (fun p => p)
                     Hosts.fresh "/tmp" _ eq_refl Hb))
    | reflexivity].
Defined.

(** ** Refreshing a listing *)

Lemma rsplit_sep_snd_no_sep p :
  OsPath.no_sep (snd (OsPath.rsplit_sep p)) = true.
Proof.
  induction p as [|c p IH]; [reflexivity|]. cbn [OsPath.rsplit_sep].
  destruct (OsPath.rsplit_sep p) as [h t]. cbn [snd] in IH.
  destruct h as [|x h]; [|exact IH].
  destruct (Ascii.eqb c "/") eqn:Hc; [exact IH|].
  cbn [snd OsPath.no_sep]. now rewrite Hc, IH.
Qed.

Lemma split_snd p : snd (OsPath.split p) = snd (OsPath.rsplit_sep p).
Proof.
  unfold OsPath.split. now destruct (OsPath.rsplit_sep p) as [h t].
Qed.

Lemma rsplit_sep_snoc_other d c :
  c <> "/"%char -> snd (OsPath.rsplit_sep (d ++ String c "")) <> "".
Proof.
  intros Hc. apply Ascii.eqb_neq in Hc. induction d as [|x d IH].
  - rewrite append_nil. simpl. now rewrite Hc.
  - rewrite append_cons. cbn [OsPath.rsplit_sep].
    destruct (OsPath.rsplit_sep (d ++ String c "")) as [h t]. cbn [snd] in *.
    destruct h as [|y h]; [|exact IH].
    destruct (Ascii.eqb x "/"); [exact IH | discriminate].
Qed.

Lemma rstrip_sep_snoc_sep s :
  OsPath.rstrip_sep (s ++ "/") = OsPath.rstrip_sep s.
Proof.
  induction s as [|x s IH].
  - reflexivity.
  - rewrite append_cons. cbn [OsPath.rstrip_sep]. now rewrite IH.
Qed.

Lemma rstrip_sep_snoc_other d c :
  c <> "/"%char ->
  OsPath.rstrip_sep (d ++ String c "") = (d ++ String c "")%string.
Proof.
  intros Hc. apply Ascii.eqb_neq in Hc. induction d as [|x d IH].
  - rewrite append_nil. simpl. now rewrite Hc.
  - rewrite append_cons. cbn [OsPath.rstrip_sep]. rewrite IH.
    destruct d; reflexivity.
Qed.

Lemma all_char_snoc_other d c s :
  c <> "/"%char -> OsPath.all_char "/" (d ++ String c s) = false.
Proof.
  intros Hc. apply Ascii.eqb_neq in Hc. induction d as [|x d IH].
  - rewrite append_nil. simpl. now rewrite Hc.
  - rewrite append_cons. cbn [OsPath.all_char]. rewrite IH.
    apply andb_false_r.
Qed.

(** Splitting undoes joining a directory and a name, for a directory as
    [os.path.abspath] gives it: the root, or a path that does not end
    with a separator. *)
Lemma split_join d g :
  d = "/" \/ (exists d0 c, d = (d0 ++ String c "")%string /\ c <> "/"%char) ->
  OsPath.no_sep g = true -> g <> "" ->
  OsPath.split (OsPath.join d g) = (d, g).
Proof.
  intros Hd Hg Hne.
  destruct g as [|x g]; [congruence|].
  assert (Hx : Ascii.eqb x "/" = false).
  { cbn [OsPath.no_sep] in Hg. apply andb_true_iff in Hg as [Hx _].
    now apply negb_true_iff in Hx. }
  assert (Hjoin : forall a, a <> "" ->
            OsPath.join a (String x g) =
            if String.eqb (snd (OsPath.rsplit_sep a)) ""
            then (a ++ String x g)%string
            else (a ++ "/" ++ String x g)%string).
  { intros a Ha. unfold OsPath.join.
    destruct (Ascii.eqb_spec x "/") as [->|Hxne]; [discriminate|].
    destruct x as [[] [] [] [] [] [] [] []]; try (destruct a; congruence);
      destruct a; congruence. }
  destruct Hd as [->|(d0 & c & -> & Hc)].
  - rewrite Hjoin by discriminate.
    change (OsPath.rsplit_sep "/") with ("/", "").
    cbn [snd String.eqb]. rewrite append_cons, append_nil.
    unfold OsPath.split.
    change (OsPath.rsplit_sep (String "/" (String x g)))
      with (let (h, t) := OsPath.rsplit_sep (String x g) in
            match h with
            | "" => if Ascii.eqb "/" "/" then ("/", t)
                    else ("", String "/" t)
            | _ => (String "/" h, t)
            end).
    rewrite (rsplit_sep_no_sep (String x g) Hg). reflexivity.
  - rewrite Hjoin by (destruct d0; discriminate).
    pose proof (rsplit_sep_snoc_other d0 c Hc) as Hs.
    apply String.eqb_neq in Hs. rewrite Hs.
    unfold OsPath.split.
    rewrite (rsplit_sep_child (d0 ++ String c "") (String x g) Hg).
    assert (Ha : OsPath.all_char "/" ((d0 ++ String c "") ++ "/") = false)
      by (rewrite string_app_assoc, append_cons, append_nil;
          now apply all_char_snoc_other).
    assert (Hr : OsPath.rstrip_sep ((d0 ++ String c "") ++ "/") =
                 (d0 ++ String c "")%string)
      by (rewrite rstrip_sep_snoc_sep; now apply rstrip_sep_snoc_other).
    rewrite Ha, Hr.
    destruct ((d0 ++ String c "") ++ "/")%string eqn:E;
      [destruct d0; discriminate | reflexivity].
Qed.

Section Refresh.
Variable os : Host.

Lemma browse_valid st path :
  isdir os (browse_dir os path) = true ->
  browse os st path =
  makelisting
    (set_listing st
       (map (get_info os (columns st)) (browse_filelist os path))
       (browse_pattern os path))
    (browse_pattern os path).
Proof.
  unfold browse, browse_filelist, browse_pattern, browse_dir.
  destruct (isdir os path).
  - intros ->. reflexivity.
  - destruct (OsPath.split path) as [d g]. cbn [fst snd].
    intros ->. cbn [negb]. destruct g; reflexivity.
Qed.

(** The name part of the pattern a listing globs has no separator and is
    not empty. *)
Lemma browse_glob_name path :
  exists g,
    browse_pattern os path = OsPath.join (browse_dir os path) g /\
    OsPath.no_sep g = true /\ g <> "".
Proof.
  unfold browse_pattern. destruct (isdir os path).
  - exists "*". repeat split; discriminate.
  - rewrite split_snd.
    pose proof (rsplit_sep_snd_no_sep path) as Hn.
    destruct (snd (OsPath.rsplit_sep path)) as [|c g].
    + exists "*". repeat split; discriminate.
    + exists (String c g). repeat split; [exact Hn | discriminate].
Qed.

(** Refreshing a listing changes nothing while the file system stays as
    it is: when the listed directory is in the form [os.path.abspath]
    gives (abspath leaves it alone, and it is the root or does not end
    with a separator) and the pattern of the listing is not itself a
    directory, [refresh] rebuilds the very state the listing left: same
    rows, same tree, same pattern, same entry text, no call to the
    viewer. *)
Theorem refresh_stable st path st' :
  isdir os (browse_dir os path) = true ->
  abspath os (browse_dir os path) = browse_dir os path ->
  (browse_dir os path = "/" \/
   exists d c, browse_dir os path = (d ++ String c "")%string /\
               c <> "/"%char) ->
  isdir os (browse_pattern os path) = false ->
  browse os st path = inr st' ->
  refresh os st' = inr st'.
Proof.
  intros Hdir Habs Hform Hpat Hb.
  destruct (browse_glob_name path) as (g & Hg & Hsep & Hne).
  pose proof (split_join (browse_dir os path) g Hform Hsep Hne) as Hsplit.
  rewrite <- Hg in Hsplit.
  assert (Hd2 : browse_dir os (browse_pattern os path) = browse_dir os path).
  { unfold browse_dir at 1. now rewrite Hpat, Hsplit. }
  assert (Hp2 : browse_pattern os (browse_pattern os path) =
                browse_pattern os path).
  { unfold browse_pattern at 1. rewrite Hpat, Hd2, Hsplit. cbn [snd].
    rewrite Hg. now destruct g. }
  assert (Hf2 : browse_filelist os (browse_pattern os path) =
                browse_filelist os path).
  { unfold browse_filelist. now rewrite Hd2, Hp2. }
  rewrite (browse_valid st path Hdir) in Hb. unfold makelisting in Hb.
  cbn [jumpinfo set_listing] in Hb.
  destruct (make_tree _ ∅) as [e|[ji t]] eqn:Ht; [discriminate|].
  injection Hb as <-. unfold refresh. cbn [curpath set_view set_listing].
  rewrite browse_valid by (now rewrite Hd2).
  rewrite Hf2, Hp2. unfold makelisting. cbn [jumpinfo set_listing columns set_view].
  rewrite Ht. reflexivity.
Qed.

End Refresh.

Lemma refresh_stable_witness :
  exists st',
    browse Hosts.tmp Hosts.fresh "/tmp" = inr st' /\
    refresh Hosts.tmp st' = inr st'.
Proof.
  destruct (browse_ok Hosts.tmp Hosts.fresh "/tmp" eq_refl) as [tree Hb].
  eexists. split; [exact Hb|].
  apply (refresh_stable Hosts.tmp Hosts.fresh "/tmp" _ eq_refl eq_refl).
  - right. exists "/tm", "p"%char. split; [reflexivity | discriminate].
  - reflexivity.
  - exact Hb.
Defined.

(** ** What a row holds *)

Section Rows.
Variable os : Host.


End Rows.

(** ** Loading the structure of a given index *)

Section LoadIndex.
Context {A : Type}.
Variable urlparse : string -> UrlInfo.
Variable pds4_read : string -> Exception + list (Structure A).

(** With [numhdu] given, the loader takes the structure at that index
    without asking whether it is an array.  The index is a Python index:
    a negative one counts from the end, and the loader returns it as it
    was given; an index outside the file is an IndexError, raised after
    the file was read and before anything reaches the destination
    object. *)
Theorem load_file_explicit_index filespec i dstobj struct :
  existsb (String.eqb (scheme (urlparse filespec))) ["file"; ""] = true ->
  pds4_read (path (urlparse filespec)) = inr struct ->
  ((0 <= i < Z.of_nat (length struct))%Z ->
   exists s,
     nth_error struct (Z.to_nat i) = Some s /\
     result (load_file urlparse pds4_read filespec (Some i) dstobj) =
       match normalize s (sdata s) with
       | inl e => inl e
       | inr im => inr (im, i)
       end) /\
  ((- Z.of_nat (length struct) <= i < 0)%Z ->
   exists s,
     nth_error struct (Z.to_nat (Z.of_nat (length struct) + i)) = Some s /\
     result (load_file urlparse pds4_read filespec (Some i) dstobj) =
       match normalize s (sdata s) with
       | inl e => inl e
       | inr im => inr (im, i)
       end) /\
  ((i < - Z.of_nat (length struct) \/ Z.of_nat (length struct) <= i)%Z ->
   load_file urlparse pds4_read filespec (Some i) dstobj =
     (inl IndexError, [PDS4Read (path (urlparse filespec))])).
Proof.
  intros Hgate Hread.
  rewrite (load_file_read urlparse pds4_read _ (Some i) dstobj struct
             Hgate Hread).
  assert (Hres : forall s,
            py_index struct i = Some s ->
            result
              match py_index struct i with
              | Some s =>
                  match normalize s (sdata s) with
                  | inl e => (inl e, [PDS4Read (path (urlparse filespec))])
                  | inr im =>
                      (inr (im, i),
                       PDS4Read (path (urlparse filespec)) ::
                       (if dstobj then [SetData im] else []))
                  end
              | None => (inl IndexError, [PDS4Read (path (urlparse filespec))])
              end =
            match normalize s (sdata s) with
            | inl e => inl e
            | inr im => inr (im, i)
            end).
  { intros s ->. now destruct (normalize s (sdata s)). }
  split; [|split].
  - intros Hi.
    assert (Hlt : Z.to_nat i < length struct) by lia.
    destruct (nth_error struct (Z.to_nat i)) as [s|] eqn:Hs;
      [|apply nth_error_None in Hs; lia].
    exists s. split; [reflexivity|]. apply Hres. unfold py_index.
    assert (Hb : (0 <=? i)%Z = true) by (apply Z.leb_le; lia).
    now rewrite Hb.
  - intros Hi.
    assert (Hlt : Z.to_nat (Z.of_nat (length struct) + i) < length struct)
      by lia.
    destruct (nth_error struct (Z.to_nat (Z.of_nat (length struct) + i)))
      as [s|] eqn:Hs; [|apply nth_error_None in Hs; lia].
    exists s. split; [reflexivity|]. apply Hres. unfold py_index.
    assert (Hb : (0 <=? i)%Z = false) by (apply Z.leb_gt; lia).
    assert (Hb' : (- Z.of_nat (length struct) <=? i)%Z = true)
      by (apply Z.leb_le; lia).
    now rewrite Hb, Hb'.
  - intros Hi.
    assert (Hnone : py_index struct i = None).
    { unfold py_index. destruct (0 <=? i)%Z eqn:Hb.
      - apply Z.leb_le in Hb. apply nth_error_None. lia.
      - apply Z.leb_gt in Hb.
        assert (Hb' : (- Z.of_nat (length struct) <=? i)%Z = false)
          by (apply Z.leb_gt; lia).
        now rewrite Hb'. }
    now rewrite Hnone.
Qed.

End LoadIndex.

Lemma load_file_explicit_index_witness :
  result (load_file Samples.urlparse Files.read_mixed "/data/mixed.xml"
            (Some (-1)%Z) false) =
  inr (mk_ndarray [3; 4] [8; 9; 10; 11; 4; 5; 6; 7; 0; 1; 2; 3]%Z, (-1)%Z).
Proof.
  destruct (load_file_explicit_index Samples.urlparse Files.read_mixed
              "/data/mixed.xml" (-1)%Z false
              [Files.table; Files.table; Files.image] eq_refl eq_refl)
    as (_ & Hneg & _).
  destruct Hneg as (s & Hs & Hres); [simpl; lia|].
  rewrite Hres. injection Hs as <-. reflexivity.
Defined.

(** ** The orientation of an array of any rank, element by element *)

Section AnyRank.
Context {A : Type}.
Implicit Types (a raw out : ndarray A) (s : Structure A).

Lemma item_T a idx :
  wf a -> in_range (rev (shape a)) idx = true ->
  item (T a) idx = item a (rev idx).
Proof.
  intros Hwf Hin. unfold T. apply item_view; [exact Hwf | exact Hin |].
  apply in_range_rev in Hin. now rewrite rev_involutive in Hin.
Qed.

(** On an array of rank 2 or more the orientation succeeds, and it is
    this rearrangement: with sequence number 1 for the horizontal axis
    the order of all the axes is reversed (for a cube, not only that of
    the first two); "Right to Left" then counts the second index of the
    result from the other end and "Top to Bottom" the first; any further
    index is left alone. *)
Theorem normalize_item s raw haxis :
  get_axis_array s (horizontal_display_axis (Display_Direction s))
    = Some haxis ->
  wf raw -> 2 <= ndim raw ->
  exists out,
    normalize s raw = inr out /\
    shape out = (if (sequence_number haxis =? 1)%Z
                 then rev (shape raw) else shape raw) /\
    forall idx,
      in_range (shape out) idx = true ->
      item out idx =
      item raw
        ((if (sequence_number haxis =? 1)%Z then @rev nat else fun i => i)
           ((if contains "Right to Left"
                  (horizontal_display_direction (Display_Direction s))
             then mirror 1 (shape out) else fun i => i)
              ((if contains "Top to Bottom"
                     (vertical_display_direction (Display_Direction s))
                then mirror 0 (shape out) else fun i => i) idx))).
Proof.
  intros Hax Hwf Hrank. unfold normalize. rewrite Hax. cbv zeta.
  set (im := if (sequence_number haxis =? 1)%Z then T raw else raw).
  assert (Him : wf im /\ 2 <= ndim im /\
                shape im = (if (sequence_number haxis =? 1)%Z
                            then rev (shape raw) else shape raw) /\
                forall idx, in_range (shape im) idx = true ->
                  item im idx =
                  item raw ((if (sequence_number haxis =? 1)%Z
                             then @rev nat else fun i => i) idx)).
  { unfold im. destruct (sequence_number haxis =? 1)%Z.
    - split; [apply (T_perm raw Hwf)|]. split; [now rewrite ndim_T|].
      split; [reflexivity|]. intros idx Hin. now apply item_T.
    - repeat split; auto. }
  destruct Him as (Hwf' & Hrank' & Hshape & Hitem). clearbody im.
  rewrite (reversals_view im _ _ Hwf' Hrank').
  eexists. split; [reflexivity|]. cbn [shape view].
  split; [exact Hshape|]. intros idx Hin.
  rewrite item_view;
    [|exact Hwf' | exact Hin | now apply reversal_index_in_range].
  apply Hitem. now apply reversal_index_in_range.
Qed.

End AnyRank.

Lemma normalize_item_witness :
  exists out,
    normalize (Samples.label [("Sample", 1%Z); ("Line", 2%Z); ("Band", 3%Z)]
                 "Right to Left" "Bottom to Top" Samples.cube_2x2x2)
              Samples.cube_2x2x2 = inr out /\
    item out [0; 1; 1] = Some 5%Z.
Proof.
  destruct (normalize_item
              (Samples.label [("Sample", 1%Z); ("Line", 2%Z); ("Band", 3%Z)]
                 "Right to Left" "Bottom to Top" Samples.cube_2x2x2)
              Samples.cube_2x2x2 {| sequence_number := 1 |}
              eq_refl eq_refl)
    as (out & Hn & Hs & Hitem).
  - unfold ndim. simpl. lia.
  - exists out. split; [exact Hn|].
    rewrite Hitem by (rewrite Hs; reflexivity).
    rewrite Hs. reflexivity.
Defined.

(** ** A double click on a row of the listing *)

Section DoubleClick.
Variable os : Host.
Variable path_exists : string -> bool.

Lemma path_of_listed cols (l : list string) (b : Bunch) :
  In b (map with_icon (map (get_info os cols) l)) ->
  exists p, In p l /\ b !! "path" = Some (VStr p) /\ path_of b = inr p.
Proof.
  rewrite map_map. intros Hin. apply in_map_iff in Hin as (p & <- & Hp).
  exists p. split; [exact Hp|].
  assert (H : with_icon (get_info os cols p) !! "path" = Some (VStr p))
    by (rewrite with_icon_lookup by discriminate; apply get_info_path).
  split; [exact H|]. unfold path_of. now rewrite H.
Qed.

Lemma paths_of_listed cols (l : list string) (sel : list (string * Bunch)) :
  List.Forall
    (fun kb => In (snd kb) (map with_icon (map (get_info os cols) l))) sel ->
  exists ps, paths_of sel = inr ps.
Proof.
  induction 1 as [|[k b] sel Hb _ [ps IH]]; cbn [paths_of]; [eauto|].
  destruct (path_of_listed cols l b Hb) as (p & _ & _ & ->).
  rewrite IH. eauto.
Qed.

(** A double click on rows of a listing raises nothing of its own:
    every listed row carries its path, the path of the first selected
    row is the one that is opened, and the other selected rows are
    ignored. *)
Theorem item_dblclicked_listed st path st' k b rest :
  isdir os (browse_dir os path) = true ->
  browse os st path = inr st' ->
  In b (jumpinfo st') ->
  List.Forall (fun kb : string * Bunch => In (snd kb) (jumpinfo st')) rest ->
  exists p st'',
    In p (browse_filelist os path) /\
    b !! "path" = Some (VStr p) /\
    item_dblclicked_cb os path_exists st' ((k, b) :: rest) = inr st'' /\
    open_file os path_exists st' p = inr st''.
Proof.
  intros Hdir. destruct (browse_ok os st path Hdir) as [tree ->].
  intros Hb.
  assert (Hj : jumpinfo st' =
               map with_icon
                 (map (get_info os (columns st)) (browse_filelist os path)))
    by (injection Hb as <-; reflexivity).
  rewrite Hj. intros Hin Hrest.
  destruct (path_of_listed _ _ _ Hin) as (p & Hp & Hpath & Hof).
  destruct (paths_of_listed _ _ _ Hrest) as [ps Hps].
  destruct (open_file_returns os path_exists st' p) as (st'' & Hopen & _).
  exists p, st''. repeat split; try assumption.
  unfold item_dblclicked_cb. cbn [paths_of]. now rewrite Hof, Hps.
Qed.

End DoubleClick.

Lemma item_dblclicked_listed_witness :
  exists st' st'',
    browse Hosts.tmp Hosts.fresh "/tmp" = inr st' /\
    item_dblclicked_cb Hosts.tmp (fun p => true) st'
      [("data1.xml",
        with_icon (get_info Hosts.tmp Hosts.default_columns "/tmp/data1.xml"))]
      = inr st''.
Proof.
  destruct (browse_ok Hosts.tmp Hosts.fresh "/tmp" eq_refl) as [tree Hb].
  destruct (item_dblclicked_listed Hosts.tmp (fun p => true)
              Hosts.fresh "/tmp" _ "data1.xml"
              (with_icon
                 (get_info Hosts.tmp Hosts.default_columns "/tmp/data1.xml"))
              [] eq_refl Hb)
    as (p & st'' & _ & _ & Hclick & _).
  - cbn [jumpinfo set_view]. apply in_map, in_map.
    vm_compute. tauto.
  - constructor.
  - eexists. exists st''. split; [exact Hb | exact Hclick].
Defined.

(** ** Sample runs of the listing maker and of the double click *)

Lemma makelisting_listed_witness :
  exists st',
    makelisting
      (set_listing Hosts.fresh
         (map (get_info Hosts.tmp Hosts.default_columns)
            ["/tmp/link"; "/tmp/data1.xml"]) "/tmp/*")
      "/tmp/*" = inr st' /\
    entry st' = "/tmp/*" /\ calls st' = [].
Proof.
  destruct (makelisting_listed Hosts.tmp
              (set_listing Hosts.fresh
                 (map (get_info Hosts.tmp Hosts.default_columns)
                    ["/tmp/link"; "/tmp/data1.xml"]) "/tmp/*")
              Hosts.default_columns ["/tmp/link"; "/tmp/data1.xml"]
              "/tmp/*" eq_refl)
    as (st' & Hm & _ & _ & He & _ & Hc).
  exists st'. repeat split; assumption.
Defined.

Lemma open_file_cases_witness :
  exists st',
    open_file Hosts.tmp (fun p => true) Hosts.fresh "/tmp/data1.xml"
      = inr st' /\
    calls st' = [LoadFile "file:///tmp/data1.xml"] /\
    jumpinfo st' = [].
Proof.
  destruct (open_file_cases Hosts.tmp (fun p => true) Hosts.fresh
              "/tmp/data1.xml") as (_ & Hload & _).
  destruct (Hload eq_refl eq_refl) as (st' & Ho & Hc & Hj & _).
  exists st'. repeat split; assumption.
Defined.
